(** * AWRS lookup service: a shallow embedding of [main.py]

    The service receives a registration number on a webhook, drives the
    registry's HTML search form, reads the labelled fields off the results
    page and answers with a JSON object.

    Modelling conventions.
    - A Python [str] is a [string] whose characters are the code points below
      256.  On these, [str.upper], [str.lower], [str.strip], [str.split],
      [str.isalpha], [str.isdigit], the white-space class and the
      case-insensitive comparison of [re] are the tables of the module [Char],
      read off Python.  Two code points, U+00B5 and U+00FF, have an upper-case
      form above 255 that a character here cannot hold; [Char.upper] leaves
      them as they are, and they are the only places where the tables differ
      from Python.  Code points from 256 on are outside the embedding.
    - [None] is [None] of an [option]; [x or empty] is [or_empty].
    - A Python [dict] is a [gmap]; a missing key is a [None] lookup.
    - A parsed document (a BeautifulSoup tree) is a [node]; parsing itself
      belongs to the library and is not modelled.
    - The network is a [registry]: a function from the history of the session
      and the request to an outcome.  The program runs in a small monad that
      threads the log of requests and carries early [return]s and raised
      exceptions.
    - [print], [time.sleep] and the request timeouts have no effect on any
      returned value and are left out; the clock is read as a string. *)

From Stdlib Require Import String Ascii ZArith NArith List Bool Lia PrimFloat.
From stdpp Require Import gmap strings pretty.
Import ListNotations.

Set Warnings "-register-all".

Local Open Scope string_scope.
Local Open Scope bool_scope.

(** ** Characters *)

Module Char.

Definition code (c : ascii) : N := N_of_ascii c.

Definition between (lo hi : N) (c : ascii) : bool :=
  (lo <=? code c)%N && (code c <=? hi)%N.

Definition is_ascii (c : ascii) : bool := (code c <? 128)%N.

(** The classes [A-Z], [a-z], [0-9] and [A-Za-z] of ASCII. *)
Definition is_upper (c : ascii) : bool := between 65 90 c.
Definition is_lower (c : ascii) : bool := between 97 122 c.
Definition is_digit (c : ascii) : bool := between 48 57 c.
Definition is_alpha (c : ascii) : bool := is_upper c || is_lower c.

(** The class [[A-Za-z0-9]] of the pattern in [format_awrs]. *)
Definition is_alnum (c : ascii) : bool := is_alpha c || is_digit c.

(** Python's white space below 256: TAB, LF, VT, FF, CR, the four
    separators FS, GS, RS, US, the space, NEL (U+0085) and the no-break space
    (U+00A0).  [str.strip], [str.split] and [\s] of a [str] pattern all use
    this set. *)
Definition is_space (c : ascii) : bool :=
  between 9 13 c || between 28 31 c || (code c =? 32)%N
  || (code c =? 133)%N || (code c =? 160)%N.

(** The class [[^\n\r]]. *)
Definition not_newline (c : ascii) : bool :=
  negb ((code c =? 10)%N || (code c =? 13)%N).

(** The letters of Latin-1 with a case: U+00C0..U+00DE without the
    multiplication sign, U+00E0..U+00FE without the division sign. *)
Definition is_upper_latin (c : ascii) : bool :=
  between 192 222 c && negb (code c =? 215)%N.
Definition is_lower_latin (c : ascii) : bool :=
  between 224 254 c && negb (code c =? 247)%N.

(** [c.isalpha()]: the letters of ASCII, the ordinal indicators, the micro
    sign and the letters U+00C0..U+00FF. *)
Definition isalpha (c : ascii) : bool :=
  is_alpha c || (code c =? 170)%N || (code c =? 181)%N || (code c =? 186)%N
  || is_upper_latin c || is_lower_latin c || (code c =? 223)%N || (code c =? 255)%N.

(** [c.isdigit()]: the digits of ASCII and the superscripts one, two, three. *)
Definition isdigit (c : ascii) : bool :=
  is_digit c || (code c =? 178)%N || (code c =? 179)%N || (code c =? 185)%N.

(** The upper-case form of a character when it is one character. *)
Definition simple_upper (c : ascii) : ascii :=
  if is_lower c || is_lower_latin c then ascii_of_N (code c - 32) else c.

(** [c.upper()], a string: the sharp s (U+00DF) becomes the two letters SS. *)
Definition upper (c : ascii) : string :=
  if (code c =? 223)%N then String (ascii_of_N 83) (String (ascii_of_N 83) EmptyString)
  else String (simple_upper c) EmptyString.

(** [c.lower()]. *)
Definition lower (c : ascii) : ascii :=
  if is_upper c || is_upper_latin c then ascii_of_N (code c + 32) else c.

(** Equality of characters under [re.IGNORECASE]. *)
Definition eqb_nocase (a b : ascii) : bool :=
  Ascii.eqb (lower a) (lower b).

End Char.

(** ** Strings *)

Module Str.

Fixpoint map (f : ascii -> ascii) (s : string) : string :=
  match s with
  | EmptyString => EmptyString
  | String c s' => String (f c) (map f s')
  end.

Fixpoint filter (p : ascii -> bool) (s : string) : string :=
  match s with
  | EmptyString => EmptyString
  | String c s' => if p c then String c (filter p s') else filter p s'
  end.

Fixpoint all (p : ascii -> bool) (s : string) : bool :=
  match s with
  | EmptyString => true
  | String c s' => p c && all p s'
  end.

Definition is_empty (s : string) : bool :=
  match s with EmptyString => true | _ => false end.

(** [s.upper()]: character by character, a character may give several. *)
Fixpoint upper (s : string) : string :=
  match s with
  | EmptyString => EmptyString
  | String c s' => Char.upper c ++ upper s'
  end.

(** [s.lower()]. *)
Definition lower : string -> string := map Char.lower.

(** [s.isalpha()], [s.isdigit()]: false on the empty string. *)
Definition isalpha (s : string) : bool := negb (is_empty s) && all Char.isalpha s.
Definition isdigit (s : string) : bool := negb (is_empty s) && all Char.isdigit s.

(** [s[n:]] and [s[:n]]. *)
Fixpoint drop (n : nat) (s : string) : string :=
  match n, s with
  | O, _ => s
  | S _, EmptyString => EmptyString
  | S n', String _ s' => drop n' s'
  end.

Fixpoint take (n : nat) (s : string) : string :=
  match n, s with
  | O, _ => EmptyString
  | S _, EmptyString => EmptyString
  | S n', String c s' => String c (take n' s')
  end.

(** [s[i:j]] for [0 <= i <= j]. *)
Definition slice (i j : nat) (s : string) : string := take (j - i) (drop i s).

(** [s.lstrip()], [s.rstrip()], [s.strip()]. *)
Fixpoint lstrip (s : string) : string :=
  match s with
  | EmptyString => EmptyString
  | String c s' => if Char.is_space c then lstrip s' else s
  end.

Fixpoint rstrip (s : string) : string :=
  match s with
  | EmptyString => EmptyString
  | String c s' =>
      let r := rstrip s' in
      if Char.is_space c && is_empty r then EmptyString else String c r
  end.

Definition strip (s : string) : string := rstrip (lstrip s).

(** [s.startswith(p)]. *)
Fixpoint startswith (p s : string) : bool :=
  match p, s with
  | EmptyString, _ => true
  | String _ _, EmptyString => false
  | String a p', String b s' => Ascii.eqb a b && startswith p' s'
  end.

(** [p in s]. *)
Fixpoint contains (p s : string) : bool :=
  startswith p s ||
  match s with
  | EmptyString => false
  | String _ s' => contains p s'
  end.

(** [s.split()]: the maximal runs of characters that are not white space.
    [cur] is the run being read. *)
Fixpoint split_go (cur : string) (s : string) : list string :=
  match s with
  | EmptyString => if is_empty cur then [] else [cur]
  | String c s' =>
      if Char.is_space c
      then (if is_empty cur then [] else [cur]) ++ split_go EmptyString s'
      else split_go (cur ++ String c EmptyString) s'
  end.

Definition split : string -> list string := split_go EmptyString.

(** [sep.join(l)]. *)
Fixpoint join (sep : string) (l : list string) : string :=
  match l with
  | [] => EmptyString
  | [x] => x
  | x :: l' => x ++ sep ++ join sep l'
  end.

End Str.

(** [x or empty-string] for [x] a [str] or [None]. *)
Definition or_empty (x : option string) : string :=
  match x with
  | Some s => s
  | None => ""
  end.

(** [a or b] on strings: [a] when it is not empty. *)
Definition str_or (a b : string) : string :=
  if Str.is_empty a then b else a.

(** ** Identifier formatter *)

(** [re.sub] of every character outside [A-Za-z0-9] by nothing. *)
Definition sub_non_alnum (s : string) : string := Str.filter Char.is_alnum s.

Definition format_awrs (urn : option string) : string :=
  let u := sub_non_alnum (Str.upper (or_empty urn)) in
  if (String.length u =? 15)%nat && Str.isalpha (Str.take 4 u) && Str.isdigit (Str.drop 4 u)
  then
    Str.take 4 u ++ " " ++ Str.slice 4 8 u ++ " " ++ Str.slice 8 12 u ++ " " ++ Str.drop 12 u
  else
    Str.upper (Str.strip (or_empty urn)).

(** ** Status normaliser *)

Definition normalise_status (raw : option string) : string :=
  let s := Str.lower (Str.strip (or_empty raw)) in
  if String.eqb s "approved" then "Approved"
  else if existsb (String.eqb s) ["not approved"; "no longer approved"; "no-longer approved"]
  then "Not Approved"
  else if existsb (String.eqb s) ["no match"; "no results found"]
  then "No Match"
  else if existsb (String.eqb s) ["deregistered"; "removed"; "revoked"; "application withdrawn"]
  then "Deregistered"
  else if String.eqb s "not applicable" then "Approved"
  else if Str.is_empty s || String.eqb s "" then "Unknown"
  else Str.strip (or_empty raw).

(** ** Parsed documents *)

(** A parsed HTML tree: character data, or an element with its name, its
    attributes (a [dict] in the library) and its children in order.  A [Text]
    is a string that [get_text] reads from the elements on which the program
    calls it (the document, [a], [form], [dt], [dd]): comments, and what
    [script], [style] and [template] elements contain, are strings of other
    kinds in the library, which [get_text] passes over there, and they are
    not part of a [node]. *)
Inductive node :=
| Text (s : string)
| Tag (name : string) (attrs : gmap string string) (children : list node).

Module Soup.

(** [n.get_text()]: the character data below [n], in document order. *)
Fixpoint get_text (n : node) : string :=
  match n with
  | Text s => s
  | Tag _ _ cs =>
      (fix cat (l : list node) : string :=
         match l with
         | [] => ""
         | c :: rest => get_text c ++ cat rest
         end) cs
  end.

(** The elements below [n] in document order, each one with the nodes that
    follow it under the same parent. *)
Fixpoint elements (n : node) : list (node * list node) :=
  match n with
  | Text _ => []
  | Tag _ _ cs =>
      (fix walk (l : list node) : list (node * list node) :=
         match l with
         | [] => []
         | c :: rest =>
             match c with
             | Text _ => walk rest
             | Tag _ _ _ => (c, rest) :: elements c ++ walk rest
             end
         end) cs
  end.

Definition has_name (names : list string) (n : node) : bool :=
  match n with
  | Text _ => false
  | Tag name _ _ => existsb (String.eqb name) names
  end.

(** [n.get(key)]. *)
Definition get (key : string) (n : node) : option string :=
  match n with
  | Text _ => None
  | Tag _ attrs _ => attrs !! key
  end.

(** [soup.find_all(names)], keeping the following siblings of each hit. *)
Definition find_all_ctx (names : list string) (soup : node) : list (node * list node) :=
  List.filter (fun e => has_name names (fst e)) (elements soup).

Definition find_all (names : list string) (soup : node) : list node :=
  List.map fst (find_all_ctx names soup).

(** [soup.find(name)]: the first hit of [find_all]. *)
Definition find (name : string) (soup : node) : option node :=
  head (find_all [name] soup).

(** [tag.find_next_sibling(name)], from the siblings that follow [tag]. *)
Definition find_next_sibling (name : string) (following : list node) : option node :=
  List.find (has_name [name]) following.

End Soup.

(** ** Regular expressions

    The two patterns of [find_after_label] are built from four kinds of
    items.  Matching is the backtracking search of [re]: items are tried left
    to right, a greedy item first takes as much as it can and gives characters
    back one at a time when the rest of the pattern fails. *)

Inductive item :=
| Lit (c : ascii)              (* a literal character, as [re.escape] leaves it *)
| Star (cls : ascii -> bool)   (* zero or more of [cls] *)
| Opt (c : ascii)              (* [c?] *)
| Group (cls : ascii -> bool). (* one or more of [cls], captured as group 1 *)

Module Re.

(** Zero or more of [cls], then the continuation [k]: longest run first. *)
Fixpoint star (cls : ascii -> bool) (k : string -> option string) (s : string)
  : option string :=
  match s with
  | String c s' =>
      if cls c then
        match star cls k s' with
        | Some g => Some g
        | None => k s
        end
      else k s
  | EmptyString => k s
  end.

(** A captured run of [cls], read into [acc]; then [k] on the captured text
    and on the rest. *)
Fixpoint star_cap (cls : ascii -> bool) (k : string -> string -> option string)
  (acc s : string) : option string :=
  match s with
  | String c s' =>
      if cls c then
        match star_cap cls k (acc ++ String c "") s' with
        | Some g => Some g
        | None => k acc s
        end
      else k acc s
  | EmptyString => k acc s
  end.

Definition lit (ignorecase : bool) (c d : ascii) : bool :=
  if ignorecase then Char.eqb_nocase c d else Ascii.eqb c d.

(** Match the items at the start of [s]; [g] is group 1 so far.  The result
    is group 1 of the first match in backtracking order. *)
Fixpoint match_here (ignorecase : bool) (re : list item) (g : string) (s : string)
  : option string :=
  match re with
  | [] => Some g
  | Lit c :: re' =>
      match s with
      | String d s' => if lit ignorecase c d then match_here ignorecase re' g s' else None
      | EmptyString => None
      end
  | Star cls :: re' => star cls (match_here ignorecase re' g) s
  | Opt c :: re' =>
      let taken :=
        match s with
        | String d s' => if lit ignorecase c d then match_here ignorecase re' g s' else None
        | EmptyString => None
        end in
      match taken with
      | Some r => Some r
      | None => match_here ignorecase re' g s
      end
  | Group cls :: re' =>
      match s with
      | String d s' =>
          if cls d then
            star_cap cls (fun cap rest => match_here ignorecase re' cap rest) (String d "") s'
          else None
      | EmptyString => None
      end
  end.

(** [re.search(pattern, s, flags)] followed by [.group(1)]: the leftmost
    start position at which the pattern matches. *)
Fixpoint search (ignorecase : bool) (re : list item) (s : string) : option string :=
  match match_here ignorecase re "" s with
  | Some g => Some g
  | None =>
      match s with
      | String _ s' => search ignorecase re s'
      | EmptyString => None
      end
  end.

(** [re.escape(label)]: every character of the label stands for itself. *)
Definition escape (label : string) : list item :=
  List.map Lit (list_ascii_of_string label).

End Re.

(** ** Label extractor *)

Definition LF : ascii := ascii_of_N 10.

(** The pattern [re.escape(label)], white space, an optional colon, white
    space, then the rest of the line as group 1. *)
Definition inline_pattern (label : string) : list item :=
  Re.escape label ++ [Star Char.is_space; Opt ":"; Star Char.is_space; Group Char.not_newline].

(** The pattern [re.escape(label)], white space, a line feed, white space,
    then the rest of the line as group 1. *)
Definition next_line_pattern (label : string) : list item :=
  Re.escape label ++ [Star Char.is_space; Lit LF; Star Char.is_space; Group Char.not_newline].

(** The loop over the [dt] elements: the first term whose text is the label
    and that has a [dd] after it answers; [None] when the loop runs out. *)
Fixpoint definition_list_match (label : string) (dts : list (node * list node))
  : option string :=
  match dts with
  | [] => None
  | (dt, following) :: rest =>
      if String.eqb (Str.lower (Str.strip (Soup.get_text dt))) (Str.lower label) then
        match Soup.find_next_sibling "dd" following with
        | Some dd => Some (Str.strip (Str.join " " (Str.split (Soup.get_text dd))))
        | None => definition_list_match label rest
        end
      else definition_list_match label rest
  end.

(** The second and third strategies, on the text of the document. *)
Definition inline_match (label text : string) : option string :=
  option_map Str.strip (Re.search true (inline_pattern label) text).

Definition next_line_match (label text : string) : option string :=
  option_map Str.strip (Re.search true (next_line_pattern label) text).

(** No call in the body raises on a [str] label and a parsed document, so the
    [except] branch is not reached and has no counterpart here. *)
Definition find_after_label (label : string) (soup : node) : string :=
  match definition_list_match label (Soup.find_all_ctx ["dt"] soup) with
  | Some v => v
  | None =>
      let text := Soup.get_text soup in
      match inline_match label text with
      | Some v => v
      | None =>
          match next_line_match label text with
          | Some v => v
          | None => ""
          end
      end
  end.

(** ** JSON values and result records *)

(** The values that [request.json] yields and [jsonify] takes: a number is an
    [int] or a [float], a binary64 number. *)
Inductive json :=
| JNull
| JBool (b : bool)
| JInt (z : Z)
| JFloat (f : float)
| JStr (s : string)
| JArr (l : list json)
| JObj (m : gmap string json).

(** Python's truth value of a parsed JSON value. *)
Definition truthy (j : json) : bool :=
  match j with
  | JNull => false
  | JBool b => b
  | JInt z => negb (z =? 0)%Z
  | JFloat f => negb (PrimFloat.eqb f PrimFloat.zero)
  | JStr s => negb (Str.is_empty s)
  | JArr l => match l with [] => false | _ => true end
  | JObj m => negb (bool_decide (m = ∅))
  end.

(** [type(j).__name__]. *)
Definition type_name (j : json) : string :=
  match j with
  | JNull => "NoneType"
  | JBool _ => "bool"
  | JInt _ => "int"
  | JFloat _ => "float"
  | JStr _ => "str"
  | JArr _ => "list"
  | JObj _ => "dict"
  end.

(** The text of the [AttributeError] raised by [j.attr] on a value without it. *)
Definition no_attribute (j : json) (attr : string) : string :=
  "'" ++ type_name j ++ "' object has no attribute '" ++ attr ++ "'".

(** A result record, as the [dict] that is returned and serialised. *)
Abbreviation dict := (gmap string json).

(** ** The network and the session *)

Record response := { status_code : Z; content : node }.

Inductive request :=
| Get (url : string)
| Post (url : string) (data : gmap (option string) string).

Inductive outcome :=
| Fails (e : string)        (* the call raises; [e] is [str] of the exception *)
| Answers (r : response).

(** What the outside world answers to a request, given the requests the
    session has made before (cookies and server state live there). *)
Definition registry := list request -> request -> outcome.

(** How a block of the program is left before its end. *)
Inductive exit :=
| Raise (e : string)
| Return (d : dict).

(** Computations of the lookup: the log of requests is threaded, a raised
    exception or a [return] ends the block. *)
Definition M (A : Type) : Type := list request -> (exit + A) * list request.

Definition ret {A} (a : A) : M A := fun log => (inr a, log).

Definition bind {A B} (m : M A) (f : A -> M B) : M B :=
  fun log =>
    match m log with
    | (inl e, log') => (inl e, log')
    | (inr a, log') => f a log'
    end.

Definition return_ {A} (d : dict) : M A := fun log => (inl (Return d), log).

Notation "x <- m ;; k" := (bind m (fun x => k))
  (at level 100, m at next level, right associativity).

Definition call (site : registry) (rq : request) : M response :=
  fun log =>
    match site log rq with
    | Fails e => (inl (Raise e), (log ++ [rq])%list)
    | Answers r => (inr r, (log ++ [rq])%list)
    end.

(** [try: body / except Exception as e: return handler(str(e))], run in a
    fresh session. *)
Definition try_except (body : M dict) (handler : string -> dict) : dict * list request :=
  match body [] with
  | (inr d, log) => (d, log)
  | (inl (Return d), log) => (d, log)
  | (inl (Raise e), log) => (handler e, log)
  end.

(** ** Lookup orchestrator *)

Definition HMRC_URL : string := "https://www.tax.service.gov.uk/check-the-awrs-register".
Definition ORIGIN : string := "https://www.tax.service.gov.uk".

(** The failure record that [lookup_single_awrs] returns at four places,
    which differ in the message only. *)
Definition failure (error : string) (awrs_number : string) (supplier_name : json)
  (now : string) : dict :=
  {[ "success" := JBool false;
     "status" := JStr "Error";
     "error" := JStr error;
     "business_name" := JStr "";
     "address" := JStr "";
     "deregistration_date" := JStr "";
     "effective_date" := JStr "";
     "urn" := JStr "";
     "awrs_number" := JStr awrs_number;
     "supplier_name" := supplier_name;
     "search_timestamp" := JStr now ]}.

(** [a or b] on attribute values. *)
Definition attr_or (a b : option string) : option string :=
  match a with
  | Some s => if Str.is_empty s then b else a
  | None => b
  end.

(** The loop that looks for a link or form entitled "check a urn": the
    address of the first one, which may be missing. *)
Fixpoint find_check_urn (links : list node) : option string :=
  match links with
  | [] => None
  | link :: rest =>
      if negb (Str.is_empty (Soup.get_text link))
         && Str.contains "check a urn" (Str.lower (Soup.get_text link))
      then attr_or (Soup.get "href" link) (Soup.get "action" link)
      else find_check_urn rest
  end.

Definition is_input_with (attr : string) (same : string -> bool) (n : node) : bool :=
  Soup.has_name ["input"] n &&
  match Soup.get attr n with
  | Some v => same v
  | None => false
  end.

(** The loop over [soup.find_all('input', {'type': 'hidden'})]. *)
Fixpoint hidden_fields (inputs : list node) (form_data : gmap (option string) string)
  : gmap (option string) string :=
  match inputs with
  | [] => form_data
  | hidden_input :: rest =>
      let name := Soup.get "name" hidden_input in
      let value := default "" (Soup.get "value" hidden_input) in
      match name with
      | Some n =>
          if Str.is_empty n then hidden_fields rest form_data
          else hidden_fields rest (<[Some n := value]> form_data)
      | None => hidden_fields rest form_data
      end
  end.

(** [soup.select(selector)] for the three selectors of the program: an
    [input] whose attribute equals the value; the selector engine compares the
    value of [type] without regard to case in an HTML document. *)
Definition select (attr value : string) (soup : node) : list node :=
  let same :=
    if String.eqb attr "type" then fun v => String.eqb (Str.lower v) (Str.lower value)
    else String.eqb value in
  List.filter (is_input_with attr same) (Soup.find_all ["input"] soup).

(** The loop over the selectors: the first input of the first selector that
    selects anything. *)
Fixpoint find_text_input (selectors : list (string * string)) (soup : node) : option node :=
  match selectors with
  | [] => None
  | (attr, value) :: rest =>
      match select attr value soup with
      | i :: _ => Some i
      | [] => find_text_input rest soup
      end
  end.

(** The fields read off the results page, before post-processing. *)
Record extracted := {
  x_business_name : string;
  x_status : string;
  x_address : string;
  x_deregistration_date : string;
  x_effective_date : string;
  x_urn : string
}.

Definition extract (result_soup : node) : extracted :=
  {| x_business_name := find_after_label "Business name" result_soup;
     x_status :=
       str_or (find_after_label "Status" result_soup)
         (str_or (find_after_label "Application status" result_soup)
            (find_after_label "Registration status" result_soup));
     x_address :=
       str_or (find_after_label "Principal place of business" result_soup)
         (str_or (find_after_label "Business address" result_soup)
            (find_after_label "Address" result_soup));
     x_deregistration_date := find_after_label "Date of deregistration" result_soup;
     x_effective_date :=
       str_or (find_after_label "Effective date of registration" result_soup)
         (find_after_label "Registration date" result_soup);
     x_urn :=
       str_or (find_after_label "URN" result_soup) (find_after_label "AWRS URN" result_soup) |}.

(** The test of the date of deregistration, lines [if deregistration_date and
    ... == "not applicable"]. *)
Definition is_not_applicable (deregistration_date : string) : bool :=
  negb (Str.is_empty deregistration_date)
  && String.eqb (Str.lower (Str.strip deregistration_date)) "not applicable".

(** The status after normalisation, before the special case of the date. *)
Definition normalised (status : string) : string :=
  if negb (Str.is_empty status) then normalise_status (Some status) else status.

(** The special case of the date of deregistration: the date is blanked, and
    a status that is missing or "Unknown" becomes "Approved".  The result is
    the status and the date after the test. *)
Definition not_applicable_case (status deregistration_date : string) : string * string :=
  if is_not_applicable deregistration_date then
    (if Str.is_empty status || String.eqb status "Unknown" then "Approved" else status, "")
  else (status, deregistration_date).

(** From the extracted fields to the record returned on success. *)
Definition assemble (x : extracted) (formatted_urn awrs_number : string)
  (supplier_name : json) (search_timestamp : string) : dict :=
  let status := normalised (x_status x) in
  let '(status, deregistration_date) :=
    not_applicable_case status (x_deregistration_date x) in
  {[ "success" := JBool true;
     "status" := JStr (str_or status "Unknown");
     "business_name" := JStr (str_or (x_business_name x) "Not found");
     "address" := JStr (str_or (x_address x) "");
     "deregistration_date" := JStr (str_or deregistration_date "");
     "effective_date" := JStr (str_or (x_effective_date x) "");
     "urn" := JStr (str_or (x_urn x) formatted_urn);
     "awrs_number" := JStr awrs_number;
     "supplier_name" := supplier_name;
     "search_timestamp" := JStr search_timestamp ]}.

(** What reading [request.json] gives: it raises when the body is not JSON. *)
Inductive body :=
| Unreadable (e : string)
| Parsed (j : json).

Section Lookup.

Variable site : registry.

(** The reading of the clock, formatted by [strftime], that a result carries. *)
Variable now : string.

(** The body of the [try] block of [lookup_single_awrs]. *)
Definition lookup_body (awrs_number : string) (supplier_name : json) : M dict :=
  response <- call site (Get HMRC_URL) ;;
  if negb (status_code response =? 200)%Z then
    return_ (failure ("Failed to access HMRC website: " ++ pretty (status_code response))
               awrs_number supplier_name now)
  else
  let soup := content response in
  let check_urn_url := find_check_urn (Soup.find_all ["a"; "form"] soup) in
  soup <-
    match check_urn_url with
    | Some u =>
        if negb (Str.is_empty u) && negb (Str.startswith "http" u) then
          response <- call site (Get (ORIGIN ++ u)) ;;
          ret (content response)
        else ret soup
    | None => ret soup
    end ;;
  match Soup.find "form" soup with
  | None =>
      return_ (failure "Could not find search form on HMRC website"
                 awrs_number supplier_name now)
  | Some form =>
      let form_data :=
        hidden_fields
          (List.filter (is_input_with "type" (String.eqb "hidden")) (Soup.find_all ["input"] soup))
          ∅ in
      match find_text_input [("name", "value"); ("name", "query"); ("type", "text")] soup with
      | None =>
          return_ (failure "Could not find text input field" awrs_number supplier_name now)
      | Some text_input =>
          let formatted_urn := format_awrs (Some awrs_number) in
          let form_data := <[Soup.get "name" text_input := formatted_urn]> form_data in
          let action_url := default "" (Soup.get "action" form) in
          let action_url :=
            if negb (Str.startswith "http" action_url) then ORIGIN ++ action_url
            else action_url in
          search_response <- call site (Post action_url form_data) ;;
          if negb (status_code search_response =? 200)%Z then
            return_ (failure ("Search failed with status: "
                              ++ pretty (status_code search_response))
                       awrs_number supplier_name now)
          else
            let result_soup := content search_response in
            ret (assemble (extract result_soup) formatted_urn awrs_number supplier_name now)
      end
  end.

(** The result of a lookup, with the requests it made. *)
Definition lookup_single_awrs (awrs_number : string) (supplier_name : json)
  : dict * list request :=
  try_except (lookup_body awrs_number supplier_name)
    (fun e => failure ("Error during AWRS lookup: " ++ e) awrs_number supplier_name now).

(** ** Webhook endpoint *)

(** The failure record that [webhook_handler] builds itself. *)
Definition webhook_failure (error : string) : dict :=
  {[ "success" := JBool false;
     "status" := JStr "Error";
     "error" := JStr error;
     "business_name" := JStr "";
     "address" := JStr "";
     "deregistration_date" := JStr "";
     "effective_date" := JStr "";
     "urn" := JStr "";
     "search_timestamp" := JStr now ]}.

(** [data.get(key, '')] on the value of [request.json or {}]: only a [dict]
    has [get]; on the left, [str] of the exception raised. *)
Definition data_get (data : json) (key : string) : string + json :=
  match data with
  | JObj m => inr (default (JStr "") (m !! key))
  | _ => inl (no_attribute data "get")
  end.

(** [v.strip()]: only a [str] has [strip]; on the left, [str] of the exception
    raised. *)
Definition json_strip (v : json) : string + string :=
  match v with
  | JStr s => inr (Str.strip s)
  | _ => inl (no_attribute v "strip")
  end.

(** The body of the [try] block of [webhook_handler]; the requests are those
    of the lookup it may call. *)
Definition webhook_body (rq : body) : (exit + dict) * list request :=
  match rq with
  | Unreadable e => (inl (Raise e), [])
  | Parsed j =>
      let data := if truthy j then j else JObj ∅ in
      match data_get data "awrs_number" with
      | inl e => (inl (Raise e), [])
      | inr v =>
          match json_strip v with
          | inl e => (inl (Raise e), [])
          | inr awrs_number =>
              match data_get data "supplier_name" with
              | inl e => (inl (Raise e), [])
              | inr supplier_name =>
                  if Str.is_empty awrs_number then
                    (inl (Return (webhook_failure "No AWRS number provided")), [])
                  else
                    let (result, log) := lookup_single_awrs awrs_number supplier_name in
                    (inr result, log)
              end
          end
      end
  end.

(** The JSON object that [POST /] answers with, and the requests made. *)
Definition webhook_handler (rq : body) : dict * list request :=
  match webhook_body rq with
  | (inr d, log) => (d, log)
  | (inl (Return d), log) => (d, log)
  | (inl (Raise e), log) => (webhook_failure e, log)
  end.

End Lookup.

(** [GET /]: the liveness answer; [now_iso] is the reading of the clock in
    ISO 8601 form. *)
Definition health_check (now_iso : string) : dict :=
  {[ "status" := JStr "AWRS REQUESTS-BASED API is running";
     "timestamp" := JStr now_iso ]}.

(** * Vocabulary of the properties *)

(** ** The formatter and the normaliser *)

(** The key that [normalise_status] looks up: the input trimmed and in lower
    case. *)
Definition status_key (raw : option string) : string :=
  Str.lower (Str.strip (or_empty raw)).

Definition status_keys : list string :=
  [ "approved"; "not approved"; "no longer approved"; "no-longer approved";
    "no match"; "no results found";
    "deregistered"; "removed"; "revoked"; "application withdrawn";
    "not applicable"; "" ].

(** The input with every character that is not a letter or a digit removed,
    and what is left in upper case. *)
Definition stripped_upper (x : string) : string :=
  Str.upper (Str.filter Char.is_alnum x).

(** The same two steps in the order of the code: the input in upper case, and
    then every character outside [A-Za-z0-9] removed. *)
Definition upper_stripped (x : string) : string :=
  sub_non_alnum (Str.upper x).

(** The sharp s, U+00DF, and an identifier that begins with it. *)
Definition sharp_s : ascii := ascii_of_N 223.
Definition sharp_s_urn : string := String sharp_s "aa00001234567".

(** Fifteen characters: four letters, then eleven digits. *)
Definition is_urn_shape (u : string) : bool :=
  (String.length u =? 15)%nat
  && Str.all Char.is_alpha (Str.take 4 u)
  && Str.all Char.is_digit (Str.drop 4 u).

(** A correctly spaced URN: four letters, then digits in groups of four, four
    and three, with one space between the groups. *)
Definition is_canonical (x : string) : bool :=
  (String.length x =? 18)%nat
  && Str.all Char.is_alpha (Str.take 4 x)
  && String.eqb (Str.slice 4 5 x) " "
  && Str.all Char.is_digit (Str.slice 5 9 x)
  && String.eqb (Str.slice 9 10 x) " "
  && Str.all Char.is_digit (Str.slice 10 14 x)
  && String.eqb (Str.slice 14 15 x) " "
  && Str.all Char.is_digit (Str.drop 15 x).

(** ** The strategies of the extractor *)

(** What each strategy finds, in the order in which they are tried: [None]
    when the strategy has no match, the value of the match otherwise. *)
Definition strategies (label : string) (soup : node) : list (option string) :=
  [ definition_list_match label (Soup.find_all_ctx ["dt"] soup);
    inline_match label (Soup.get_text soup);
    next_line_match label (Soup.get_text soup) ].

(** The value of the first strategy that has a match. *)
Fixpoint first_match (found : list (option string)) : string :=
  match found with
  | [] => ""
  | Some v :: _ => v
  | None :: rest => first_match rest
  end.

(** The value of the first strategy whose value is not empty. *)
Fixpoint first_non_empty (found : list (option string)) : string :=
  match found with
  | [] => ""
  | Some v :: rest => if Str.is_empty v then first_non_empty rest else v
  | None :: rest => first_non_empty rest
  end.

(** [skips cls s s']: [s'] is [s] without some leading characters of [cls]. *)
Inductive skips (cls : ascii -> bool) : string -> string -> Prop :=
| skips_here s : skips cls s s
| skips_next c s s' : cls c = true -> skips cls s s' -> skips cls (String c s) s'.

(** The literal part of a pattern, on its own. *)
Fixpoint after_literals (ignorecase : bool) (lits : list ascii) (s : string)
  : option string :=
  match lits with
  | [] => Some s
  | c :: lits' =>
      match s with
      | String d s' => if Re.lit ignorecase c d then after_literals ignorecase lits' s' else None
      | EmptyString => None
      end
  end.

(** ** Records and runs *)

(** The content of a failure record: the status and the five content fields. *)
Definition is_error_record (d : dict) : Prop :=
  d !! "status" = Some (JStr "Error") /\
  d !! "business_name" = Some (JStr "") /\
  d !! "address" = Some (JStr "") /\
  d !! "deregistration_date" = Some (JStr "") /\
  d !! "effective_date" = Some (JStr "") /\
  d !! "urn" = Some (JStr "").


(** The number of a request body is missing or blank: the body is empty, or it
    is an object without [awrs_number], or with an [awrs_number] that trims to
    the empty string. *)
Definition number_missing_or_blank (j : json) : Prop :=
  truthy j = false \/
  exists m, j = JObj m /\
    (m !! "awrs_number" = None \/
     exists s, m !! "awrs_number" = Some (JStr s) /\ Str.strip s = "").

(** The answer to the last request of a log, when there is one. *)
Definition answered (site : registry) (log : list request) : option response :=
  match rev log with
  | [] => None
  | rq :: before =>
      match site (rev before) rq with
      | Answers r => Some r
      | Fails _ => None
      end
  end.

Section Endings.

Variable site : registry.
Variables now awrs_number : string.
Variable supplier_name : json.

(** The five ways in which a lookup ends, each with the record returned and
    the requests made; the last request is the one that decided. *)
Inductive ending : dict -> list request -> Prop :=
| end_raised log rq e :
    site log rq = Fails e ->
    ending (failure ("Error during AWRS lookup: " ++ e) awrs_number supplier_name now)
      (log ++ [rq])
| end_landing_refused r :
    site [] (Get HMRC_URL) = Answers r ->
    status_code r <> 200%Z ->
    ending
      (failure ("Failed to access HMRC website: " ++ pretty (status_code r))
         awrs_number supplier_name now)
      [Get HMRC_URL]
| end_no_form log url r error :
    site log (Get url) = Answers r ->
    error = "Could not find search form on HMRC website"
    \/ error = "Could not find text input field" ->
    ending (failure error awrs_number supplier_name now) (log ++ [Get url])
| end_search_refused log url data r :
    site log (Post url data) = Answers r ->
    status_code r <> 200%Z ->
    ending
      (failure ("Search failed with status: " ++ pretty (status_code r))
         awrs_number supplier_name now)
      (log ++ [Post url data])
| end_found log url data r :
    site log (Post url data) = Answers r ->
    status_code r = 200%Z ->
    ending
      (assemble (extract (content r)) (format_awrs (Some awrs_number))
         awrs_number supplier_name now)
      (log ++ [Post url data]).

End Endings.

(** ** Pages and registries of the scenarios *)

Definition elt (name : string) (children : list node) : node := Tag name ∅ children.

Definition input (attrs : list (string * string)) : node :=
  Tag "input" (list_to_map attrs) [].

(** A landing page that carries the search form. *)
Definition search_page : node :=
  elt "[document]"
    [ elt "html"
        [ elt "body"
            [ elt "h1" [Text "Check the AWRS register"];
              Tag "form" {[ "action" := "/check-the-awrs-register/search" ]}
                [ input [("type", "hidden"); ("name", "csrfToken"); ("value", "t0k3n")];
                  input [("type", "text"); ("name", "query")] ] ] ] ].

(** A results page that shows its fields in a definition list. *)
Definition results_page (fields : list (string * string)) : node :=
  elt "[document]"
    [ elt "dl"
        (flat_map (fun f => [elt "dt" [Text (fst f)]; elt "dd" [Text (snd f)]]) fields) ].

(** The results page of scenario 4 of the specification: the date of
    deregistration is "Not Applicable" and no status is shown. *)
Definition not_applicable_page : node :=
  results_page [("Business name", "Acme Ltd"); ("Date of deregistration", "Not Applicable")].

(** A page whose definition list has the term with a blank definition, and
    the status in running text further down. *)
Definition blank_definition_page : node :=
  elt "[document]"
    [ elt "dl" [elt "dt" [Text "Status"]; elt "dd" [Text " "]];
      elt "p" [Text "Registration status: Approved"] ].

(** A registry that answers every [GET] with the search page and every
    [POST] with the given page, under the given status codes. *)
Definition mock_registry (landing_code search_code : Z) (results : node) : registry :=
  fun _ rq =>
    match rq with
    | Get _ => Answers {| status_code := landing_code; content := search_page |}
    | Post _ _ => Answers {| status_code := search_code; content := results |}
    end.

Definition timestamp : string := "03 November 2026 09:30AM".

(** ** Vocabulary of the further properties *)

(** A string that does not begin with white space. *)
Definition starts_clean (s : string) : Prop :=
  match s with
  | EmptyString => True
  | String c _ => Char.is_space c = false
  end.

(** The selectors of the text input, in the order in which they are tried,
    and the hidden inputs of a page. *)
Definition text_selectors : list (string * string) :=
  [("name", "value"); ("name", "query"); ("type", "text")].

Definition hidden_inputs (page : node) : list node :=
  List.filter (is_input_with "type" (String.eqb "hidden")) (Soup.find_all ["input"] page).

(** A character that [upper] leaves as it is. *)
Definition keeps_case (c : ascii) : bool :=
  String.eqb (Char.upper c) (String c "").

(** The grouping of a fifteen-character identifier. *)
Definition regroup (u : string) : string :=
  Str.take 4 u ++ " " ++ Str.slice 4 8 u ++ " " ++ Str.slice 8 12 u ++ " " ++ Str.drop 12 u.

(** The five canonical statuses that the normaliser can produce. *)
Definition canonical_statuses : list string :=
  [ "Approved"; "Not Approved"; "No Match"; "Deregistered"; "Unknown" ].

(** Every capture group of the pattern has the class [cls]. *)
Definition groups_of (cls : ascii -> bool) (re : list item) : Prop :=
  Forall (fun it => match it with Group c => c = cls | _ => True end) re.

(** The value of a strategy that matched: a trimmed string on one line. *)
Definition is_value (v : string) : Prop :=
  Str.strip v = v /\ Str.all Char.not_newline v = true.

(** A witness of X13: the registry cannot be reached. *)
Definition unreachable : registry := fun _ _ => Fails "Connection refused".

(** The registry [site], except that the page fetched after the landing page
    is answered with the status code [code]. *)
Definition with_navigation_status (code : Z) (site : registry) : registry :=
  fun log rq =>
    match log, rq with
    | [_], Get _ =>
        match site log rq with
        | Answers r => Answers {| status_code := code; content := content r |}
        | Fails e => Fails e
        end
    | _, _ => site log rq
    end.

(** * Properties *)

(** ** Examples *)

Example format_awrs_ex1 : format_awrs (Some "xaaw00001234567") = "XAAW 0000 1234 567".
Proof. vm_compute. reflexivity. Qed.

Example format_awrs_ex2 : format_awrs (Some " xaaw-0000/1234 567 ") = "XAAW 0000 1234 567".
Proof. vm_compute. reflexivity. Qed.

Example format_awrs_ex3 : format_awrs (Some " ab 12 ") = "AB 12".
Proof. vm_compute. reflexivity. Qed.

Example normalise_status_ex1 : normalise_status (Some " No Longer approved ") = "Not Approved".
Proof. vm_compute. reflexivity. Qed.

Example find_after_label_dl :
  find_after_label "Status"
    (elt "[document]" [elt "dl" [elt "dt" [Text " status "]; Text " "; elt "dd" [Text "  No longer
   approved "]]])
  = "No longer approved".
Proof. vm_compute. reflexivity. Qed.

Example find_after_label_inline :
  find_after_label "Status" (elt "[document]" [elt "p" [Text "Status: Approved"]]) = "Approved".
Proof. vm_compute. reflexivity. Qed.

Example find_after_label_none :
  find_after_label "Status" (elt "[document]" [elt "p" [Text "Nothing here"]]) = "".
Proof. vm_compute. reflexivity. Qed.

(** ** Characters and strings *)

Ltac by_cases_on_char c :=
  destruct c as [[] [] [] [] [] [] [] []]; vm_compute; try reflexivity; try discriminate.

Lemma alnum_simple_upper (c : ascii) :
  Char.is_alnum (Char.simple_upper c) = Char.is_alnum c.
Proof. by_cases_on_char c. Qed.

Lemma space_not_alnum (c : ascii) : Char.is_space c = true -> Char.is_alnum c = false.
Proof. by_cases_on_char c. Qed.

Lemma alpha_alnum (c : ascii) : Char.is_alpha c = true -> Char.is_alnum c = true.
Proof. by_cases_on_char c. Qed.

Lemma digit_alnum (c : ascii) : Char.is_digit c = true -> Char.is_alnum c = true.
Proof. by_cases_on_char c. Qed.

Lemma alpha_simple_upper (c : ascii) :
  Char.is_alpha (Char.simple_upper c) = Char.is_alpha c.
Proof. by_cases_on_char c. Qed.

Lemma digit_simple_upper (c : ascii) :
  Char.is_digit (Char.simple_upper c) = Char.is_digit c.
Proof. by_cases_on_char c. Qed.

Lemma alnum_ascii (c : ascii) : Char.is_alnum c = true -> Char.is_ascii c = true.
Proof. by_cases_on_char c. Qed.

(** On the letters and digits of ASCII, [isalpha] and [isdigit] are the
    classes [A-Za-z] and [0-9]. *)
Lemma alnum_isalpha (c : ascii) :
  Char.is_alnum c = true -> Char.isalpha c = Char.is_alpha c.
Proof. by_cases_on_char c. Qed.

Lemma alnum_isdigit (c : ascii) :
  Char.is_alnum c = true -> Char.isdigit c = Char.is_digit c.
Proof. by_cases_on_char c. Qed.

(** An ASCII character has a one-character upper case. *)
Lemma ascii_upper (c : ascii) :
  Char.is_ascii c = true -> Char.upper c = String (Char.simple_upper c) "".
Proof. by_cases_on_char c. Qed.

(** White space is its own upper case, and the upper case of anything else
    has no white space at its ends. *)
Lemma space_upper (c : ascii) : Char.is_space c = true -> Char.upper c = String c "".
Proof. by_cases_on_char c. Qed.

Lemma upper_starts_clean (c : ascii) :
  Char.is_space c = false -> starts_clean (Char.upper c).
Proof. by_cases_on_char c. Qed.

Lemma rstrip_upper_char (c : ascii) :
  Char.is_space c = false -> Str.rstrip (Char.upper c) = Char.upper c.
Proof. by_cases_on_char c. Qed.

(** Upper-casing leaves an upper case as it is. *)
Lemma upper_char_keeps_case (c : ascii) : Str.all keeps_case (Char.upper c) = true.
Proof. by_cases_on_char c. Qed.

Lemma upper_char_not_empty (c : ascii) : Str.is_empty (Char.upper c) = false.
Proof. unfold Char.upper. destruct (Char.code c =? 223)%N; reflexivity. Qed.

Lemma is_empty_true (s : string) : Str.is_empty s = true <-> s = "".
Proof. destruct s; simpl; split; congruence. Qed.

Lemma is_empty_eqb (s : string) : Str.is_empty s = String.eqb s "".
Proof. destruct s; reflexivity. Qed.

Lemma append_cons (c : ascii) (a b : string) : String c a ++ b = String c (a ++ b).
Proof. reflexivity. Qed.

Lemma append_empty_r (s : string) : s ++ "" = s.
Proof. induction s as [|c s IH]; [reflexivity|]. rewrite append_cons, IH. reflexivity. Qed.

Lemma append_append (a b c : string) : (a ++ b) ++ c = a ++ (b ++ c).
Proof.
  induction a as [|x a IH]; [reflexivity|]. rewrite !append_cons, IH. reflexivity.
Qed.

Lemma append_is_empty (a b : string) :
  Str.is_empty (a ++ b) = Str.is_empty a && Str.is_empty b.
Proof. destruct a; reflexivity. Qed.

Lemma all_app (p : ascii -> bool) (a b : string) :
  Str.all p (a ++ b) = Str.all p a && Str.all p b.
Proof.
  induction a as [|c a IH]; [reflexivity|].
  rewrite append_cons. cbn [Str.all]. rewrite IH, andb_assoc. reflexivity.
Qed.

Lemma all_filter (p q : ascii -> bool) (s : string) :
  Str.all p s = true -> Str.all p (Str.filter q s) = true.
Proof.
  induction s as [|c s IH]; cbn [Str.all Str.filter]; [reflexivity|].
  intros H. apply andb_prop in H as [Hc Hs].
  destruct (q c); cbn [Str.all]; rewrite ?Hc; auto.
Qed.

Lemma all_filter_self (p : ascii -> bool) (s : string) : Str.all p (Str.filter p s) = true.
Proof.
  induction s as [|c s IH]; cbn [Str.all Str.filter]; [reflexivity|].
  destruct (p c) eqn:Hc; cbn [Str.all]; rewrite ?Hc; exact IH.
Qed.

Lemma filter_all (p : ascii -> bool) (s : string) :
  Str.all p s = true -> Str.filter p s = s.
Proof.
  induction s as [|c s IH]; cbn [Str.all Str.filter]; [reflexivity|].
  intros H. apply andb_prop in H as [Hc Hs]. rewrite Hc, (IH Hs). reflexivity.
Qed.

Lemma filter_map (p : ascii -> bool) (f : ascii -> ascii) (s : string) :
  (forall c, p (f c) = p c) ->
  Str.filter p (Str.map f s) = Str.map f (Str.filter p s).
Proof.
  intros Hpf. induction s as [|c s IH]; simpl; [reflexivity|].
  rewrite Hpf. destruct (p c); simpl; rewrite IH; reflexivity.
Qed.

Lemma map_is_empty (f : ascii -> ascii) (s : string) :
  Str.is_empty (Str.map f s) = Str.is_empty s.
Proof. destruct s; reflexivity. Qed.

(** [upper] on strings. *)
Lemma upper_cons (c : ascii) (s : string) :
  Str.upper (String c s) = Char.upper c ++ Str.upper s.
Proof. reflexivity. Qed.

Lemma upper_app (a b : string) : Str.upper (a ++ b) = Str.upper a ++ Str.upper b.
Proof.
  induction a as [|c a IH]; [reflexivity|].
  rewrite append_cons, !upper_cons, IH, append_append. reflexivity.
Qed.

Lemma upper_is_empty (s : string) : Str.is_empty (Str.upper s) = Str.is_empty s.
Proof.
  destruct s as [|c s]; [reflexivity|].
  rewrite upper_cons, append_is_empty, upper_char_not_empty. reflexivity.
Qed.

Lemma upper_keeps_case (s : string) : Str.all keeps_case (Str.upper s) = true.
Proof.
  induction s as [|c s IH]; [reflexivity|].
  rewrite upper_cons, all_app, upper_char_keeps_case, IH. reflexivity.
Qed.

Lemma upper_fixed (s : string) : Str.all keeps_case s = true -> Str.upper s = s.
Proof.
  induction s as [|c s IH]; [reflexivity|].
  cbn [Str.all]. intros H. apply andb_prop in H as [Hc Hs].
  apply String.eqb_eq in Hc.
  rewrite upper_cons, Hc, (IH Hs). reflexivity.
Qed.

Lemma upper_idem (s : string) : Str.upper (Str.upper s) = Str.upper s.
Proof. apply upper_fixed, upper_keeps_case. Qed.

(** On an ASCII string [upper] works character by character. *)
Lemma upper_simple (s : string) :
  Str.all Char.is_ascii s = true -> Str.upper s = Str.map Char.simple_upper s.
Proof.
  induction s as [|c s IH]; [reflexivity|].
  cbn [Str.all]. intros H. apply andb_prop in H as [Hc Hs].
  rewrite upper_cons, (ascii_upper c Hc), (IH Hs). reflexivity.
Qed.

Lemma isalpha_all (s : string) :
  Str.is_empty s = false -> Str.isalpha s = Str.all Char.isalpha s.
Proof. unfold Str.isalpha. intros ->. reflexivity. Qed.

Lemma isdigit_all (s : string) :
  Str.is_empty s = false -> Str.isdigit s = Str.all Char.isdigit s.
Proof. unfold Str.isdigit. intros ->. reflexivity. Qed.

(** ** C2: the status table *)

Lemma eqb_false_of_not_in (s k : string) (keys : list string) :
  ~ In s keys -> In k keys -> String.eqb s k = false.
Proof.
  intros Hs Hk. apply String.eqb_neq. intros ->. exact (Hs Hk).
Qed.

Ltac status_case raw H :=
  unfold normalise_status; fold (status_key raw); simpl In in H;
  repeat (destruct H as [H|H]; [rewrite <- H; reflexivity|]);
  try contradiction.

(** C2. [normalise_status] is the fixed table on the trimmed, lower-cased
    input: "approved" and "not applicable" give "Approved"; "not approved",
    "no longer approved" and "no-longer approved" give "Not Approved";
    "no match" and "no results found" give "No Match"; "deregistered",
    "removed", "revoked" and "application withdrawn" give "Deregistered"; the
    empty string gives "Unknown"; every other input comes back trimmed and
    otherwise unchanged. *)
Theorem normalise_status_table (raw : option string) :
  (In (status_key raw) ["approved"; "not applicable"] ->
     normalise_status raw = "Approved") /\
  (In (status_key raw) ["not approved"; "no longer approved"; "no-longer approved"] ->
     normalise_status raw = "Not Approved") /\
  (In (status_key raw) ["no match"; "no results found"] ->
     normalise_status raw = "No Match") /\
  (In (status_key raw) ["deregistered"; "removed"; "revoked"; "application withdrawn"] ->
     normalise_status raw = "Deregistered") /\
  (status_key raw = "" -> normalise_status raw = "Unknown") /\
  (~ In (status_key raw) status_keys ->
     normalise_status raw = Str.strip (or_empty raw)).
Proof.
  repeat split; intros H.
  - status_case raw H.
  - status_case raw H.
  - status_case raw H.
  - status_case raw H.
  - unfold normalise_status. fold (status_key raw). rewrite H. reflexivity.
  - unfold normalise_status. fold (status_key raw).
    assert (Hk : forall k, In k status_keys -> String.eqb (status_key raw) k = false)
      by (intros k Hk; eapply eqb_false_of_not_in; eauto).
    rewrite is_empty_eqb.
    cbn [existsb].
    rewrite !Hk by (unfold status_keys; simpl; tauto).
    reflexivity.
Qed.

(** The examples of the specification. *)
Example normalise_status_examples :
  normalise_status (Some "Approved") = "Approved" /\
  normalise_status (Some "APPROVED") = "Approved" /\
  normalise_status (Some " approved ") = "Approved" /\
  normalise_status (Some "not applicable") = "Approved" /\
  normalise_status (Some "") = "Unknown" /\
  normalise_status None = "Unknown" /\
  normalise_status (Some " Something Else ") = "Something Else".
Proof. vm_compute. repeat split. Qed.

(** ** C6, C9: the identifier formatter *)

Lemma length_15_inv (u : string) :
  String.length u = 15%nat ->
  exists c1 c2 c3 c4 c5 c6 c7 c8 c9 c10 c11 c12 c13 c14 c15,
    u = String c1 (String c2 (String c3 (String c4 (String c5 (String c6 (String c7
       (String c8 (String c9 (String c10 (String c11 (String c12 (String c13
       (String c14 (String c15 "")))))))))))))).
Proof.
  intros H.
  do 15 (destruct u as [|? u]; [discriminate H|]).
  destruct u; [|discriminate H].
  repeat eexists.
Qed.

(** After the substitution only letters and digits of ASCII are left, and on
    these the guard of [format_awrs] is the shape test. *)
Lemma format_awrs_guard (u : string) :
  Str.all Char.is_alnum u = true ->
  (String.length u =? 15)%nat && Str.isalpha (Str.take 4 u) && Str.isdigit (Str.drop 4 u)
  = is_urn_shape u.
Proof.
  unfold is_urn_shape. intros Hu.
  destruct (String.length u =? 15)%nat eqn:Hlen; [|reflexivity].
  apply Nat.eqb_eq, length_15_inv in Hlen.
  destruct Hlen as (c1 & c2 & c3 & c4 & c5 & c6 & c7 & c8 & c9 & c10 & c11 & c12
                    & c13 & c14 & c15 & ->).
  cbn [Str.all] in Hu.
  repeat match goal with
         | E : _ && _ = true |- _ => apply andb_prop in E as [? ?]
         end.
  cbn [Str.take Str.drop Str.isalpha Str.isdigit Str.is_empty negb Str.all andb].
  repeat match goal with
         | E : Char.is_alnum ?c = true |- context [Char.isalpha ?c] =>
             rewrite (alnum_isalpha c E)
         | E : Char.is_alnum ?c = true |- context [Char.isdigit ?c] =>
             rewrite (alnum_isdigit c E)
         end.
  reflexivity.
Qed.

Lemma format_awrs_unfold (urn : option string) :
  format_awrs urn =
  let u := upper_stripped (or_empty urn) in
  if is_urn_shape u then
    Str.take 4 u ++ " " ++ Str.slice 4 8 u ++ " " ++ Str.slice 8 12 u ++ " " ++ Str.drop 12 u
  else Str.upper (Str.strip (or_empty urn)).
Proof.
  unfold format_awrs. cbv zeta. fold (upper_stripped (or_empty urn)).
  rewrite format_awrs_guard by apply all_filter_self. reflexivity.
Qed.

(** On an ASCII input the two orders give the same: stripping and then
    upper-casing, or upper-casing and then stripping. *)
Lemma upper_stripped_ascii (x : string) :
  Str.all Char.is_ascii x = true -> upper_stripped x = stripped_upper x.
Proof.
  intros Hx. unfold upper_stripped, stripped_upper, sub_non_alnum.
  rewrite (upper_simple x Hx), (upper_simple _ (all_filter _ Char.is_alnum x Hx)).
  apply filter_map, alnum_simple_upper.
Qed.

(** C6, against the specification.  The code puts the input in upper case
    before it removes what is not a letter or a digit of ASCII, and the upper
    case of the sharp s is the two letters SS.  The input made of the sharp s
    and "aa00001234567" has thirteen letters and digits, which is not the
    shape of a URN, so that the specification asks for the input trimmed and
    in upper case; the code finds fifteen characters after upper-casing and
    answers with four groups. *)
Lemma format_awrs_strips_after_upper_case :
  stripped_upper sharp_s_urn = "AA00001234567" /\
  is_urn_shape (stripped_upper sharp_s_urn) = false /\
  Str.upper (Str.strip sharp_s_urn) = "SSAA00001234567" /\
  format_awrs (Some sharp_s_urn) = "SSAA 0000 1234 567" /\
  format_awrs (Some sharp_s_urn) <> Str.upper (Str.strip sharp_s_urn).
Proof. vm_compute. repeat split. discriminate. Qed.

(** C6, amended.  [format_awrs] puts the input in upper case and then removes
    every character outside [A-Za-z0-9]; when what is left is fifteen
    characters, four letters then eleven digits, the result is those
    characters in groups of 4, 4, 4 and 3 with a space between groups;
    otherwise the result is the input trimmed and in upper case.  On an ASCII
    input the two steps commute, and what is left is the input stripped of
    what is not a letter or a digit and then put in upper case.  The function
    is total. *)
Theorem format_awrs_upper_then_strip (urn : option string) :
  (is_urn_shape (upper_stripped (or_empty urn)) = true ->
     exists a b c d : string,
       upper_stripped (or_empty urn) = a ++ b ++ c ++ d /\
       String.length a = 4%nat /\ String.length b = 4%nat /\
       String.length c = 4%nat /\ String.length d = 3%nat /\
       format_awrs urn = a ++ " " ++ b ++ " " ++ c ++ " " ++ d) /\
  (is_urn_shape (upper_stripped (or_empty urn)) = false ->
     format_awrs urn = Str.upper (Str.strip (or_empty urn))) /\
  (Str.all Char.is_ascii (or_empty urn) = true ->
     upper_stripped (or_empty urn) = stripped_upper (or_empty urn)).
Proof.
  rewrite format_awrs_unfold. cbv zeta.
  set (u := upper_stripped (or_empty urn)).
  split; [|split]; [intros Hshape; rewrite Hshape | intros Hshape; rewrite Hshape; reflexivity
                   | apply upper_stripped_ascii].
  exists (Str.take 4 u), (Str.slice 4 8 u), (Str.slice 8 12 u), (Str.drop 12 u).
  unfold is_urn_shape in Hshape.
  destruct (String.length u =? 15)%nat eqn:Hlen; [|discriminate Hshape].
  apply Nat.eqb_eq, length_15_inv in Hlen.
  destruct Hlen as (c1 & c2 & c3 & c4 & c5 & c6 & c7 & c8 & c9 & c10 & c11 & c12
                    & c13 & c14 & c15 & ->).
  repeat split.
Qed.

Lemma length_18_inv (x : string) :
  String.length x = 18%nat ->
  exists c1 c2 c3 c4 c5 c6 c7 c8 c9 c10 c11 c12 c13 c14 c15 c16 c17 c18,
    x = String c1 (String c2 (String c3 (String c4 (String c5 (String c6 (String c7
       (String c8 (String c9 (String c10 (String c11 (String c12 (String c13
       (String c14 (String c15 (String c16 (String c17 (String c18 ""))))))))))))))))).
Proof.
  intros H.
  do 18 (destruct x as [|? x]; [discriminate H|]).
  destruct x; [|discriminate H].
  repeat eexists.
Qed.

Lemma eqb_space (c : ascii) : String.eqb (String c "") " " = true -> c = " "%char.
Proof. intros H. apply String.eqb_eq in H. congruence. Qed.

Lemma alpha_upper_alnum (c : ascii) :
  Char.is_alpha c = true -> Char.is_alnum (Char.simple_upper c) = true.
Proof. intros H. rewrite alnum_simple_upper. apply alpha_alnum, H. Qed.

Lemma digit_upper_alnum (c : ascii) :
  Char.is_digit c = true -> Char.is_alnum (Char.simple_upper c) = true.
Proof. intros H. rewrite alnum_simple_upper. apply digit_alnum, H. Qed.

Lemma alpha_upper_alpha (c : ascii) :
  Char.is_alpha c = true -> Char.is_alpha (Char.simple_upper c) = true.
Proof. intros H. rewrite alpha_simple_upper. exact H. Qed.

Lemma digit_upper_digit (c : ascii) :
  Char.is_digit c = true -> Char.is_digit (Char.simple_upper c) = true.
Proof. intros H. rewrite digit_simple_upper. exact H. Qed.

Lemma alpha_upper_isalpha (c : ascii) :
  Char.is_alpha c = true -> Char.isalpha (Char.simple_upper c) = true.
Proof.
  intros H. rewrite alnum_isalpha by apply alpha_upper_alnum, H.
  apply alpha_upper_alpha, H.
Qed.

Lemma digit_upper_isdigit (c : ascii) :
  Char.is_digit c = true -> Char.isdigit (Char.simple_upper c) = true.
Proof.
  intros H. rewrite alnum_isdigit by apply digit_upper_alnum, H.
  apply digit_upper_digit, H.
Qed.

Lemma alpha_ascii (c : ascii) : Char.is_alpha c = true -> Char.is_ascii c = true.
Proof. intros H. apply alnum_ascii, alpha_alnum, H. Qed.

Lemma digit_ascii (c : ascii) : Char.is_digit c = true -> Char.is_ascii c = true.
Proof. intros H. apply alnum_ascii, digit_alnum, H. Qed.

Lemma canonical_inv (x : string) :
  is_canonical x = true ->
  exists a1 a2 a3 a4 d1 d2 d3 d4 d5 d6 d7 d8 d9 d10 d11,
    x = String a1 (String a2 (String a3 (String a4 (String " " (String d1 (String d2
       (String d3 (String d4 (String " " (String d5 (String d6 (String d7 (String d8
       (String " " (String d9 (String d10 (String d11 "")))))))))))))))))
    /\ Forall (fun c => Char.is_alpha c = true) [a1; a2; a3; a4]
    /\ Forall (fun c => Char.is_digit c = true) [d1; d2; d3; d4; d5; d6; d7; d8; d9; d10; d11].
Proof.
  unfold is_canonical. intros H.
  destruct (String.length x =? 18)%nat eqn:Hlen; [|discriminate H].
  apply Nat.eqb_eq, length_18_inv in Hlen.
  destruct Hlen as (c1 & c2 & c3 & c4 & c5 & c6 & c7 & c8 & c9 & c10 & c11 & c12
                    & c13 & c14 & c15 & c16 & c17 & c18 & ->).
  cbn [andb Str.take Str.slice Str.drop Str.all Nat.sub] in H.
  repeat match goal with
         | E : _ && _ = true |- _ => apply andb_prop in E as [? ?]
         end.
  repeat match goal with
         | E : String.eqb (String _ "") " " = true |- _ => apply eqb_space in E; subst
         end.
  exists c1, c2, c3, c4, c6, c7, c8, c9, c11, c12, c13, c14, c16, c17, c18.
  repeat split; repeat (constructor 2; [assumption|]); constructor 1.
Qed.

Ltac use_char_facts :=
  repeat match goal with
         | H : Forall _ (_ :: _) |- _ => inversion_clear H
         | H : Forall _ [] |- _ => clear H
         end.

Ltac rewrite_char_facts :=
  repeat match goal with
         | H : Char.is_alpha ?c = true |- context [Char.is_alnum (Char.simple_upper ?c)] =>
             rewrite (alpha_upper_alnum c H)
         | H : Char.is_digit ?c = true |- context [Char.is_alnum (Char.simple_upper ?c)] =>
             rewrite (digit_upper_alnum c H)
         | H : Char.is_alpha ?c = true |- context [Char.is_alpha (Char.simple_upper ?c)] =>
             rewrite (alpha_upper_alpha c H)
         | H : Char.is_digit ?c = true |- context [Char.is_digit (Char.simple_upper ?c)] =>
             rewrite (digit_upper_digit c H)
         | H : Char.is_alpha ?c = true |- context [Char.isalpha (Char.simple_upper ?c)] =>
             rewrite (alpha_upper_isalpha c H)
         | H : Char.is_digit ?c = true |- context [Char.isdigit (Char.simple_upper ?c)] =>
             rewrite (digit_upper_isdigit c H)
         | H : Char.is_alpha ?c = true |- context [Char.is_ascii ?c] =>
             rewrite (alpha_ascii c H)
         | H : Char.is_digit ?c = true |- context [Char.is_ascii ?c] =>
             rewrite (digit_ascii c H)
         end.

(** A correctly spaced URN is an ASCII string. *)
Lemma canonical_ascii (x : string) :
  is_canonical x = true -> Str.all Char.is_ascii x = true.
Proof.
  intros H. apply canonical_inv in H.
  destruct H as (a1 & a2 & a3 & a4 & d1 & d2 & d3 & d4 & d5 & d6 & d7 & d8 & d9 & d10
                 & d11 & -> & Ha & Hd).
  use_char_facts.
  cbn [Str.all].
  rewrite_char_facts.
  reflexivity.
Qed.

Lemma format_awrs_canonical (x : string) :
  is_canonical x = true -> format_awrs (Some x) = Str.upper x.
Proof.
  intros H. pose proof (canonical_ascii x H) as Hascii.
  unfold format_awrs, or_empty. cbv zeta.
  rewrite (upper_simple x Hascii). clear Hascii.
  apply canonical_inv in H.
  destruct H as (a1 & a2 & a3 & a4 & d1 & d2 & d3 & d4 & d5 & d6 & d7 & d8 & d9 & d10
                 & d11 & -> & Ha & Hd).
  use_char_facts.
  unfold sub_non_alnum.
  cbn [Str.map Str.filter].
  rewrite_char_facts.
  replace (Char.is_alnum (Char.simple_upper " ")) with false by (vm_compute; reflexivity).
  cbn [String.length Nat.eqb andb Str.take Str.drop Str.slice Nat.sub Str.isalpha
       Str.isdigit Str.is_empty negb Str.all].
  rewrite_char_facts.
  cbn [andb].
  replace (Char.simple_upper " ") with " "%char by (vm_compute; reflexivity).
  reflexivity.
Qed.

Lemma upper_canonical (x : string) :
  is_canonical x = true -> is_canonical (Str.upper x) = true.
Proof.
  intros H. rewrite (upper_simple x (canonical_ascii x H)).
  apply canonical_inv in H.
  destruct H as (a1 & a2 & a3 & a4 & d1 & d2 & d3 & d4 & d5 & d6 & d7 & d8 & d9 & d10
                 & d11 & -> & Ha & Hd).
  use_char_facts.
  unfold is_canonical.
  cbn [Str.map String.length Nat.eqb andb Str.take Str.drop Str.slice Nat.sub Str.all].
  rewrite_char_facts.
  vm_compute. reflexivity.
Qed.

(** C9. On a correctly spaced URN (four letters, eleven digits, in groups of
    4, 4, 4 and 3), formatting twice gives what formatting once gives, and
    formatting once gives the URN itself with its letters in capitals. *)
Theorem format_awrs_idempotent_on_canonical (x : string) :
  is_canonical x = true ->
  format_awrs (Some (format_awrs (Some x))) = format_awrs (Some x) /\
  format_awrs (Some x) = Str.upper x.
Proof.
  intros H.
  rewrite (format_awrs_canonical x H).
  rewrite (format_awrs_canonical _ (upper_canonical x H)).
  split; [|reflexivity].
  apply upper_idem.
Qed.

(** A witness of C9. *)
Lemma format_awrs_idempotent_on_canonical_witness :
  is_canonical "XAAW 0000 1234 567" = true /\
  (format_awrs (Some (format_awrs (Some "XAAW 0000 1234 567")))
   = format_awrs (Some "XAAW 0000 1234 567") /\
   format_awrs (Some "XAAW 0000 1234 567") = Str.upper "XAAW 0000 1234 567").
Proof.
  split; [reflexivity|].
  exact (format_awrs_idempotent_on_canonical "XAAW 0000 1234 567" eq_refl).
Defined.

(** ** C3: the order of the three strategies *)

Lemma first_match_non_empty (found : list (option string)) :
  first_match found <> "" -> first_match found = first_non_empty found.
Proof.
  induction found as [|[v|] rest IH]; simpl; intros H.
  - reflexivity.
  - destruct v; [contradiction|reflexivity].
  - apply IH, H.
Qed.

Lemma first_match_none (found : list (option string)) :
  Forall (fun r => r = None) found -> first_match found = "".
Proof.
  induction 1 as [|r rest -> _ IH]; simpl; auto.
Qed.

Lemma find_after_label_strategies (label : string) (soup : node) :
  find_after_label label soup = first_match (strategies label soup).
Proof.
  unfold find_after_label, strategies. cbv zeta. simpl first_match.
  destruct (definition_list_match _ _); [reflexivity|].
  destruct (inline_match _ _); [reflexivity|].
  destruct (next_line_match _ _); reflexivity.
Qed.

(** C3, as stated, fails: the definition-list strategy answers with the blank
    definition, and the inline strategy, which has a value, is not tried. *)
Lemma find_after_label_stops_at_blank_match :
  find_after_label "Status" blank_definition_page = "" /\
  first_non_empty (strategies "Status" blank_definition_page)
  = "Registration status: Approved" /\
  find_after_label "Status" blank_definition_page
  <> first_non_empty (strategies "Status" blank_definition_page).
Proof. vm_compute. repeat split. discriminate. Qed.

(** C3, amended. [find_after_label] tries the definition list, then the inline
    pattern, then the next-line pattern, and returns the value of the first
    strategy that has a match, also when that value is empty.  So whenever it
    returns a non-empty string, that is the first non-empty result of the
    three; and it returns the empty string when none of the three has a
    match. *)
Theorem find_after_label_first_match (label : string) (soup : node) :
  find_after_label label soup = first_match (strategies label soup) /\
  (find_after_label label soup <> "" ->
     find_after_label label soup = first_non_empty (strategies label soup)) /\
  (Forall (fun r => r = None) (strategies label soup) ->
     find_after_label label soup = "").
Proof.
  rewrite find_after_label_strategies.
  split; [reflexivity|]. split.
  - apply first_match_non_empty.
  - apply first_match_none.
Qed.

(** ** The third strategy is covered by the second

    White space in the inline pattern includes the line feed, so wherever the
    next-line pattern matches the inline pattern matches as well: the third
    strategy is tried only when it cannot match. *)

Lemma skips_trans (cls : ascii -> bool) (s1 s2 s3 : string) :
  skips cls s1 s2 -> skips cls s2 s3 -> skips cls s1 s3.
Proof.
  induction 1 as [|c s s' Hc _ IH]; intros H; [exact H|].
  apply skips_next; auto.
Qed.

(** What a greedy star finds, some split of the input finds. *)
Lemma star_sound (cls : ascii -> bool) (k : string -> option string) (s g : string) :
  Re.star cls k s = Some g -> exists s', skips cls s s' /\ k s' = Some g.
Proof.
  induction s as [|c s IH]; simpl; intros H.
  - exists "". split; [constructor|exact H].
  - destruct (cls c) eqn:Hc.
    + destruct (Re.star cls k s) as [g'|] eqn:Hs.
      * destruct (IH H) as (s' & Hskip & Hk).
        exists s'. split; [apply skips_next; assumption|exact Hk].
      * exists (String c s). split; [constructor|exact H].
    + exists (String c s). split; [constructor|exact H].
Qed.

(** Backtracking is complete: if the continuation succeeds after some split,
    the star succeeds. *)
Lemma star_complete (cls : ascii -> bool) (k : string -> option string) (s s' : string) :
  skips cls s s' -> is_Some (k s') -> is_Some (Re.star cls k s).
Proof.
  induction 1 as [s|c s s' Hc _ IH]; intros Hk.
  - destruct s as [|c s]; simpl; [exact Hk|].
    destruct (cls c); [|exact Hk].
    destruct (Re.star cls k s); [eauto|exact Hk].
  - simpl. rewrite Hc. destruct (IH Hk) as [g ->]. eauto.
Qed.

Lemma star_cap_total (cls : ascii -> bool) (k : string -> string -> option string)
  (acc s : string) :
  (forall cap rest, is_Some (k cap rest)) -> is_Some (Re.star_cap cls k acc s).
Proof.
  intros Hk. revert acc. induction s as [|c s IH]; intros acc; simpl; [apply Hk|].
  destruct (cls c); [|apply Hk].
  destruct (IH (acc ++ String c "")) as [g ->]. eauto.
Qed.

Lemma match_here_literals (ignorecase : bool) (lits : list ascii) (tail : list item)
  (g s : string) :
  Re.match_here ignorecase (List.map Lit lits ++ tail)%list g s =
  match after_literals ignorecase lits s with
  | Some s' => Re.match_here ignorecase tail g s'
  | None => None
  end.
Proof.
  revert s. induction lits as [|c lits IH]; intros s; [reflexivity|].
  cbn [List.map app Re.match_here after_literals].
  destruct s as [|d s]; [reflexivity|].
  destruct (Re.lit ignorecase c d); [apply IH|reflexivity].
Qed.

Lemma line_feed_is_space (d : ascii) :
  Re.lit true LF d = true -> Char.is_space d = true.
Proof. by_cases_on_char d. Qed.

(** After the label: where the rest of the next-line pattern matches, the rest
    of the inline pattern matches. *)
Lemma next_line_tail_covered (g s : string) :
  is_Some (Re.match_here true
             [Star Char.is_space; Lit LF; Star Char.is_space; Group Char.not_newline] g s) ->
  is_Some (Re.match_here true
             [Star Char.is_space; Opt ":"; Star Char.is_space; Group Char.not_newline] g s).
Proof.
  cbn [Re.match_here]. intros [r Hr].
  apply star_sound in Hr as (s1 & Hskip1 & Hr).
  destruct s1 as [|d s1]; [discriminate Hr|].
  destruct (Re.lit true LF d) eqn:Hd; [|discriminate Hr].
  apply star_sound in Hr as (s2 & Hskip2 & Hr).
  apply (star_complete _ _ s s2).
  - eapply skips_trans; [exact Hskip1|].
    apply skips_next; [apply line_feed_is_space, Hd|exact Hskip2].
  - match goal with
    | |- is_Some (match ?taken with _ => _ end) => destruct taken; [eauto|]
    end.
    apply (star_complete _ _ s2 s2); [constructor|eauto].
Qed.

Lemma search_none_covered (re re' : list item) (s : string) :
  (forall t, is_Some (Re.match_here true re' "" t) -> is_Some (Re.match_here true re "" t)) ->
  Re.search true re s = None -> Re.search true re' s = None.
Proof.
  intros Hcov. induction s as [|c s IH]; simpl.
  - destruct (Re.match_here true re "" "") eqn:E; [discriminate|]. intros _.
    destruct (Re.match_here true re' "" "") eqn:E'; [|reflexivity].
    destruct (Hcov "") as [x Hx]; [rewrite E'; eauto|]. congruence.
  - destruct (Re.match_here true re "" (String c s)) eqn:E; [discriminate|]. intros Hs.
    destruct (Re.match_here true re' "" (String c s)) eqn:E'.
    + destruct (Hcov (String c s)) as [x Hx]; [rewrite E'; eauto|]. congruence.
    + apply IH, Hs.
Qed.

(** When the inline strategy has no match, the next-line strategy has none. *)
Lemma next_line_covered_by_inline (label text : string) :
  inline_match label text = None -> next_line_match label text = None.
Proof.
  unfold inline_match, next_line_match. intros H.
  destruct (Re.search true (inline_pattern label) text) eqn:E; [discriminate H|].
  assert (Hcov : forall t,
             is_Some (Re.match_here true (next_line_pattern label) "" t) ->
             is_Some (Re.match_here true (inline_pattern label) "" t)).
  { intros t. unfold inline_pattern, next_line_pattern, Re.escape.
    rewrite !match_here_literals.
    destruct (after_literals true (list_ascii_of_string label) t);
      [|intros [x Hx]; discriminate].
    apply next_line_tail_covered. }
  rewrite (search_none_covered _ _ _ Hcov E). reflexivity.
Qed.

(** X7. The next-line strategy never decides: on every label and document the
    result of [find_after_label] is that of the first two strategies. *)
Lemma find_after_label_two_strategies (label : string) (soup : node) :
  find_after_label label soup =
  first_match [ definition_list_match label (Soup.find_all_ctx ["dt"] soup);
                inline_match label (Soup.get_text soup) ].
Proof.
  unfold find_after_label. cbv zeta. simpl first_match.
  destruct (definition_list_match _ _); [reflexivity|].
  destruct (inline_match _ _) eqn:E; [reflexivity|].
  rewrite (next_line_covered_by_inline _ _ E). reflexivity.
Qed.

(** ** Result records *)

Ltac dict_lookup :=
  repeat (rewrite lookup_insert_ne by discriminate);
  first [ rewrite lookup_insert_eq; reflexivity
        | rewrite lookup_singleton_eq; reflexivity
        | rewrite lookup_singleton_ne by discriminate; reflexivity ].

Lemma failure_success (error awrs_number : string) (supplier_name : json) (now : string) :
  failure error awrs_number supplier_name now !! "success" = Some (JBool false).
Proof. unfold failure. dict_lookup. Qed.

Lemma failure_error (error awrs_number : string) (supplier_name : json) (now : string) :
  failure error awrs_number supplier_name now !! "error" = Some (JStr error).
Proof. unfold failure. dict_lookup. Qed.

Lemma failure_is_error_record (error awrs_number : string) (supplier_name : json)
  (now : string) :
  is_error_record (failure error awrs_number supplier_name now).
Proof. unfold is_error_record, failure. repeat split; dict_lookup. Qed.


Lemma webhook_failure_success (now error : string) :
  webhook_failure now error !! "success" = Some (JBool false).
Proof. unfold webhook_failure. dict_lookup. Qed.

Lemma webhook_failure_error (now error : string) :
  webhook_failure now error !! "error" = Some (JStr error).
Proof. unfold webhook_failure. dict_lookup. Qed.

Lemma webhook_failure_is_error_record (now error : string) :
  is_error_record (webhook_failure now error).
Proof. unfold is_error_record, webhook_failure. repeat split; dict_lookup. Qed.

Lemma webhook_failure_no_echo (now error : string) :
  webhook_failure now error !! "awrs_number" = None /\
  webhook_failure now error !! "supplier_name" = None.
Proof. unfold webhook_failure. split; dict_lookup. Qed.

Section Assembled.

Variable x : extracted.
Variables formatted_urn awrs_number : string.
Variable supplier_name : json.
Variable now : string.

Lemma assemble_success :
  assemble x formatted_urn awrs_number supplier_name now !! "success" = Some (JBool true).
Proof.
  unfold assemble. destruct (not_applicable_case _ _). dict_lookup.
Qed.

Lemma assemble_status :
  assemble x formatted_urn awrs_number supplier_name now !! "status"
  = Some (JStr (str_or
                  (fst (not_applicable_case (normalised (x_status x))
                          (x_deregistration_date x)))
                  "Unknown")).
Proof.
  unfold assemble. destruct (not_applicable_case _ _). dict_lookup.
Qed.

Lemma assemble_deregistration_date :
  assemble x formatted_urn awrs_number supplier_name now !! "deregistration_date"
  = Some (JStr (snd (not_applicable_case (normalised (x_status x))
                       (x_deregistration_date x)))).
Proof.
  unfold assemble. destruct (not_applicable_case _ _) as [st d]. cbn [snd].
  replace (str_or d "") with d by (destruct d; reflexivity).
  dict_lookup.
Qed.


End Assembled.

(** ** The runs of a lookup *)

Lemma answered_snoc (site : registry) (log : list request) (rq : request) :
  answered site (log ++ [rq])%list =
  match site log rq with Answers r => Some r | Fails _ => None end.
Proof.
  unfold answered. rewrite rev_unit, rev_involutive. reflexivity.
Qed.

Section Runs.

Variable site : registry.
Variables now awrs_number : string.
Variable supplier_name : json.

Ltac lookup_step :=
  match goal with
  | |- context [match site ?l ?rq with Fails _ => _ | Answers _ => _ end] =>
      destruct (site l rq) eqn:?
  | |- context [if negb (status_code ?r =? 200)%Z then _ else _] =>
      destruct (Z.eqb_spec (status_code r) 200)
  | |- context [match find_check_urn ?l with _ => _ end] =>
      destruct (find_check_urn l) eqn:?
  | |- context [if negb (Str.is_empty ?u) && negb (Str.startswith ?p ?u) then _ else _] =>
      destruct (negb (Str.is_empty u) && negb (Str.startswith p u)) eqn:?
  | |- context [match Soup.find ?n ?s with _ => _ end] =>
      destruct (Soup.find n s) eqn:?
  | |- context [match find_text_input ?l ?s with _ => _ end] =>
      destruct (find_text_input l s) eqn:?
  end; cbn beta iota zeta delta [negb fst snd].

Ltac lookup_end :=
  match goal with
  | H : site ?l ?rq = Fails ?e |- ending _ _ _ _ _ _ => exact (end_raised site now awrs_number supplier_name l rq e H)
  | H : site ?l (Post ?u ?d) = Answers ?r, E : status_code ?r = 200%Z |- ending _ _ _ _ _ _ =>
      exact (end_found site now awrs_number supplier_name l u d r H E)
  | H : site ?l (Post ?u ?d) = Answers ?r, E : status_code ?r <> 200%Z |- ending _ _ _ _ _ _ =>
      exact (end_search_refused site now awrs_number supplier_name l u d r H E)
  | H : site [] (Get HMRC_URL) = Answers ?r, E : status_code ?r <> 200%Z |- ending _ _ _ _ _ _ =>
      exact (end_landing_refused site now awrs_number supplier_name r H E)
  | H : site ?l (Get ?u) = Answers ?r |- ending _ _ _ _ (failure ?m _ _ _) (?l ++ [Get ?u]) =>
      apply (end_no_form site now awrs_number supplier_name l u r m H); auto
  end.

(** Every lookup ends in one of the five ways: the function is total and
    these are its only results. *)
Lemma lookup_single_awrs_ends :
  ending site now awrs_number supplier_name
    (fst (lookup_single_awrs site now awrs_number supplier_name))
    (snd (lookup_single_awrs site now awrs_number supplier_name)).
Proof.
  unfold lookup_single_awrs, try_except, lookup_body, bind, call, ret, return_.
  repeat lookup_step; lookup_end.
Qed.

(** A record returned by a lookup is a failure record or an assembled one. *)
Lemma ending_record (d : dict) (log : list request) :
  ending site now awrs_number supplier_name d log ->
  (exists error, d = failure error awrs_number supplier_name now) \/
  (exists r, answered site log = Some r /\ status_code r = 200%Z /\
             d = assemble (extract (content r)) (format_awrs (Some awrs_number))
                   awrs_number supplier_name now).
Proof.
  destruct 1; eauto.
  right. exists r. rewrite answered_snoc, H. auto.
Qed.

(** Every lookup makes a request. *)
Lemma ending_log_not_empty (d : dict) (log : list request) :
  ending site now awrs_number supplier_name d log -> log <> [].
Proof.
  destruct 1; try discriminate; apply not_eq_sym, app_cons_not_nil.
Qed.

(** A successful lookup ended on the results page. *)
Lemma ending_found (d : dict) (log : list request) :
  ending site now awrs_number supplier_name d log ->
  d !! "success" = Some (JBool true) ->
  exists r, answered site log = Some r /\ status_code r = 200%Z /\
            d = assemble (extract (content r)) (format_awrs (Some awrs_number))
                  awrs_number supplier_name now.
Proof.
  intros Hend Hs. destruct (ending_record d log Hend) as [[error ->]|Hr]; [|exact Hr].
  rewrite failure_success in Hs. discriminate.
Qed.

End Runs.

(** ** The runs of the webhook *)

(** The webhook answers with a failure record of its own, or hands on the
    result of a lookup. *)
Lemma webhook_handler_cases (site : registry) (now : string) (rq : body) :
  (exists error, webhook_handler site now rq = (webhook_failure now error, [])) \/
  (exists awrs_number supplier_name,
     webhook_handler site now rq = lookup_single_awrs site now awrs_number supplier_name).
Proof.
  unfold webhook_handler, webhook_body.
  destruct rq as [e|j]; [left; eauto|].
  destruct (data_get _ "awrs_number") as [e|v]; [left; eauto|].
  destruct (json_strip v) as [e|awrs_number]; [left; eauto|].
  destruct (data_get _ "supplier_name") as [e|supplier_name]; [left; eauto|].
  destruct (Str.is_empty awrs_number); [left; eauto|].
  right. exists awrs_number, supplier_name.
  destruct (lookup_single_awrs site now awrs_number supplier_name). reflexivity.
Qed.

(** ** C1: a failure is an error record *)

(** C1. A record returned by [lookup_single_awrs] or by [webhook_handler] with
    [success] false has status "Error" and empty [business_name], [address],
    [deregistration_date], [effective_date] and [urn]. *)
Theorem failure_implies_error_record (site : registry) (now awrs_number : string)
  (supplier_name : json) (rq : body) (d : dict) :
  d = fst (lookup_single_awrs site now awrs_number supplier_name)
  \/ d = fst (webhook_handler site now rq) ->
  d !! "success" = Some (JBool false) ->
  is_error_record d.
Proof.
  assert (Hlookup : forall a s,
    fst (lookup_single_awrs site now a s) !! "success" = Some (JBool false) ->
    is_error_record (fst (lookup_single_awrs site now a s))).
  { intros a s Hs.
    destruct (ending_record site now a s _ _ (lookup_single_awrs_ends site now a s))
      as [[error ->]|(r & _ & _ & Hd)].
    - apply failure_is_error_record.
    - rewrite Hd, assemble_success in Hs. discriminate. }
  intros [-> | ->] Hs.
  - apply Hlookup, Hs.
  - destruct (webhook_handler_cases site now rq) as [[error H]|(a & s & H)];
      rewrite H in *.
    + apply webhook_failure_is_error_record.
    + apply Hlookup, Hs.
Qed.

(** ** Scenarios *)

(** Scenario 1 of the specification: the page says "No longer approved". *)
Example scenario_not_approved :
  let d := fst (webhook_handler
                  (mock_registry 200 200
                     (results_page [("Business name", "Acme Ltd");
                                    ("Status", "No longer approved")]))
                  timestamp
                  (Parsed (JObj {[ "awrs_number" := JStr "XAAW 0000 1234 567";
                                   "supplier_name" := JStr "Acme" ]}))) in
  d !! "success" = Some (JBool true) /\ d !! "status" = Some (JStr "Not Approved").
Proof. vm_compute. split; reflexivity. Qed.

(** Scenario 2: the landing page answers 500. *)
Example scenario_landing_500 :
  let d := fst (webhook_handler (mock_registry 500 200 (results_page [])) timestamp
                  (Parsed (JObj {[ "awrs_number" := JStr "XAAW 0000 1234 567";
                                   "supplier_name" := JStr "Acme" ]}))) in
  d !! "success" = Some (JBool false) /\ d !! "status" = Some (JStr "Error") /\
  d !! "error" = Some (JStr "Failed to access HMRC website: 500").
Proof. vm_compute. repeat split; reflexivity. Qed.

(** Scenario 2, as a witness of C1. *)
Lemma failure_implies_error_record_witness :
  is_error_record
    (fst (lookup_single_awrs (mock_registry 500 200 (results_page [])) timestamp
            "XAAW 0000 1234 567" (JStr "Acme"))).
Proof.
  apply (failure_implies_error_record (mock_registry 500 200 (results_page [])) timestamp
           "XAAW 0000 1234 567" (JStr "Acme") (Parsed JNull)).
  - left. reflexivity.
  - vm_compute. reflexivity.
Defined.

(** ** C4: the test of the status code *)

Lemma assemble_no_error (x : extracted) (formatted_urn awrs_number : string)
  (supplier_name : json) (now : string) :
  assemble x formatted_urn awrs_number supplier_name now !! "error" = None.
Proof.
  unfold assemble. destruct (not_applicable_case _ _). dict_lookup.
Qed.

Lemma snoc_inv {A} (l l' : list A) (a b : A) :
  (l ++ [a] = l' ++ [b])%list -> l = l' /\ a = b.
Proof. apply app_inj_tail. Qed.

Section StatusGate.

Variable site : registry.
Variables now awrs_number : string.
Variable supplier_name : json.

(** A landing page that answers with a status other than 200 ends the lookup
    at once. *)
Lemma landing_refused (r : response) :
  site [] (Get HMRC_URL) = Answers r ->
  status_code r <> 200%Z ->
  lookup_single_awrs site now awrs_number supplier_name
  = (failure ("Failed to access HMRC website: " ++ pretty (status_code r))
       awrs_number supplier_name now,
     [Get HMRC_URL]).
Proof.
  intros Hsite Hcode.
  unfold lookup_single_awrs, try_except, lookup_body, bind, call.
  rewrite Hsite.
  destruct (Z.eqb_spec (status_code r) 200); [contradiction|reflexivity].
Qed.

(** With status 200 the lookup never ends on the landing failure. *)
Lemma landing_accepted (r : response) (d : dict) (log : list request) :
  ending site now awrs_number supplier_name d log ->
  site [] (Get HMRC_URL) = Answers r ->
  status_code r = 200%Z ->
  forall text, d !! "error" <> Some (JStr ("Failed to access HMRC website: " ++ text)).
Proof.
  intros Hend Hsite Hcode text Herr.
  destruct Hend as [log rq e _|r' Hsite' Hcode'|log url r' error _ [-> | ->]
                   |log url data r' _ _|log url data r' _ _].
  - rewrite failure_error in Herr. discriminate Herr.
  - rewrite Hsite in Hsite'. injection Hsite' as <-. contradiction.
  - rewrite failure_error in Herr. discriminate Herr.
  - rewrite failure_error in Herr. discriminate Herr.
  - rewrite failure_error in Herr. discriminate Herr.
  - rewrite assemble_no_error in Herr. discriminate Herr.
Qed.

(** When the last request of a lookup is the submission of the form, the
    status of its answer decides between the failure and the assembled
    record. *)
Lemma submission_decides (d : dict) (log : list request) (url : string)
  (data : gmap (option string) string) (r : response) :
  ending site now awrs_number supplier_name d (log ++ [Post url data]) ->
  site log (Post url data) = Answers r ->
  (status_code r <> 200%Z ->
     d = failure ("Search failed with status: " ++ pretty (status_code r))
           awrs_number supplier_name now) /\
  (status_code r = 200%Z ->
     d = assemble (extract (content r)) (format_awrs (Some awrs_number))
           awrs_number supplier_name now).
Proof.
  intros Hend Hsite.
  inversion Hend as [log' rq e Hs Hd Hl|r' Hs Hc Hd Hl|log' url' r' error Hs He Hd Hl
                    |log' url' data' r' Hs Hc Hd Hl|log' url' data' r' Hs Hc Hd Hl].
  - apply snoc_inv in Hl as [-> ->]. congruence.
  - apply (snoc_inv []) in Hl as [_ Hl]. discriminate Hl.
  - apply snoc_inv in Hl as [_ Hl]. discriminate Hl.
  - apply snoc_inv in Hl as [-> Hl]. injection Hl as -> ->.
    rewrite Hsite in Hs. injection Hs as <-. split; [reflexivity|contradiction].
  - apply snoc_inv in Hl as [-> Hl]. injection Hl as -> ->.
    rewrite Hsite in Hs. injection Hs as <-. split; [contradiction|reflexivity].
Qed.

End StatusGate.

(** C4, as stated, fails: 204 is a 2xx status, and the lookup stops at the
    landing page with an Error result. *)
Lemma landing_204_is_an_error :
  let run := lookup_single_awrs (mock_registry 204 200 (results_page [])) timestamp
               "XAAW 0000 1234 567" (JStr "Acme") in
  fst run !! "success" = Some (JBool false) /\
  fst run !! "error" = Some (JStr "Failed to access HMRC website: 204") /\
  snd run = [Get HMRC_URL].
Proof. vm_compute. repeat split; reflexivity. Qed.

(** C4, amended. At the landing page and at the submission of the form, the
    lookup returns an Error record, whose message ends with the status code,
    exactly when the status code of the answer is not 200; it goes on only
    when the status code is 200, and a submission answered with 200 gives the
    assembled record. *)
Theorem only_status_200_continues (site : registry) (now awrs_number : string)
  (supplier_name : json) :
  (forall r, site [] (Get HMRC_URL) = Answers r ->
     (status_code r <> 200%Z ->
        lookup_single_awrs site now awrs_number supplier_name
        = (failure ("Failed to access HMRC website: " ++ pretty (status_code r))
             awrs_number supplier_name now,
           [Get HMRC_URL])) /\
     (status_code r = 200%Z ->
        forall text,
          fst (lookup_single_awrs site now awrs_number supplier_name) !! "error"
          <> Some (JStr ("Failed to access HMRC website: " ++ text)))) /\
  (forall log url data r,
     snd (lookup_single_awrs site now awrs_number supplier_name) = (log ++ [Post url data])%list ->
     site log (Post url data) = Answers r ->
     (status_code r <> 200%Z ->
        fst (lookup_single_awrs site now awrs_number supplier_name)
        = failure ("Search failed with status: " ++ pretty (status_code r))
            awrs_number supplier_name now) /\
     (status_code r = 200%Z ->
        fst (lookup_single_awrs site now awrs_number supplier_name)
        = assemble (extract (content r)) (format_awrs (Some awrs_number))
            awrs_number supplier_name now)).
Proof.
  pose proof (lookup_single_awrs_ends site now awrs_number supplier_name) as Hend.
  split.
  - intros r Hsite. split.
    + apply landing_refused, Hsite.
    + intros Hcode. eapply landing_accepted; eauto.
  - intros log url data r Hlog Hsite.
    rewrite Hlog in Hend.
    eapply submission_decides; eauto.
Qed.

(** A witness of the amended C4: a submission answered with 503. *)
Lemma only_status_200_continues_witness :
  fst (lookup_single_awrs (mock_registry 200 503 (results_page [])) timestamp
         "XAAW 0000 1234 567" (JStr "Acme"))
  = failure "Search failed with status: 503" "XAAW 0000 1234 567" (JStr "Acme") timestamp.
Proof.
  refine (proj1 (proj2 (only_status_200_continues
                          (mock_registry 200 503 (results_page [])) timestamp
                          "XAAW 0000 1234 567" (JStr "Acme"))
                   [Get HMRC_URL] _ _ {| status_code := 503; content := results_page [] |}
                   _ _) _).
  - vm_compute. reflexivity.
  - reflexivity.
  - vm_compute. discriminate.
Defined.

(** ** C5, C10: the status of a successful lookup *)

Lemma not_applicable_test (deregistration_date : string) :
  Str.lower (Str.strip deregistration_date) = "not applicable" ->
  is_not_applicable deregistration_date = true.
Proof.
  intros H. unfold is_not_applicable. rewrite H.
  destruct deregistration_date; [discriminate H|reflexivity].
Qed.

Section SuccessfulLookup.

Variable site : registry.
Variables now awrs_number : string.
Variable supplier_name : json.

Local Abbreviation run := (lookup_single_awrs site now awrs_number supplier_name).

(** C5. In a successful lookup, the record is assembled from the page that
    answered the submission.  If the date of deregistration extracted from it
    is "not applicable", whatever the case and the surrounding white space,
    the returned [deregistration_date] is empty, and if the status is then
    empty or "Unknown" the returned status is "Approved".  In particular, a
    page with the date "Not Applicable" and no status gives an empty
    [deregistration_date] and the status "Approved". *)
Theorem not_applicable_date_means_approved :
  fst run !! "success" = Some (JBool true) ->
  exists r,
    answered site (snd run) = Some r /\
    (Str.lower (Str.strip (x_deregistration_date (extract (content r)))) = "not applicable" ->
       fst run !! "deregistration_date" = Some (JStr "") /\
       (normalised (x_status (extract (content r))) = ""
        \/ normalised (x_status (extract (content r))) = "Unknown" ->
        fst run !! "status" = Some (JStr "Approved"))) /\
    (x_deregistration_date (extract (content r)) = "Not Applicable" ->
     x_status (extract (content r)) = "" ->
       fst run !! "deregistration_date" = Some (JStr "") /\
       fst run !! "status" = Some (JStr "Approved")).
Proof.
  intros Hs.
  destruct (ending_found site now awrs_number supplier_name _ _
              (lookup_single_awrs_ends site now awrs_number supplier_name) Hs)
    as (r & Hr & _ & Hd).
  exists r. split; [exact Hr|].
  rewrite Hd, assemble_status, assemble_deregistration_date.
  set (x := extract (content r)).
  assert (Hgen : Str.lower (Str.strip (x_deregistration_date x)) = "not applicable" ->
                 Some (JStr (snd (not_applicable_case (normalised (x_status x))
                                    (x_deregistration_date x)))) = Some (JStr "") /\
                 (normalised (x_status x) = "" \/ normalised (x_status x) = "Unknown" ->
                  Some (JStr (str_or (fst (not_applicable_case (normalised (x_status x))
                                             (x_deregistration_date x))) "Unknown"))
                  = Some (JStr "Approved"))).
  { intros Hna. unfold not_applicable_case.
    rewrite (not_applicable_test _ Hna). cbn [fst snd].
    split; [reflexivity|]. intros [-> | ->]; reflexivity. }
  split; [exact Hgen|].
  intros Hdate Hstatus.
  destruct Hgen as [Hd' Hst].
  - rewrite Hdate. reflexivity.
  - split; [exact Hd'|]. apply Hst. left. unfold normalised. rewrite Hstatus. reflexivity.
Qed.

(** C10. In a successful lookup the returned status is never empty; when no
    status was extracted and the date of deregistration is not the special
    case, it is "Unknown". *)
Theorem successful_status_not_empty :
  fst run !! "success" = Some (JBool true) ->
  exists status r,
    fst run !! "status" = Some (JStr status) /\
    status <> "" /\
    answered site (snd run) = Some r /\
    (x_status (extract (content r)) = "" ->
     is_not_applicable (x_deregistration_date (extract (content r))) = false ->
     status = "Unknown").
Proof.
  intros Hs.
  destruct (ending_found site now awrs_number supplier_name _ _
              (lookup_single_awrs_ends site now awrs_number supplier_name) Hs)
    as (r & Hr & _ & Hd).
  set (x := extract (content r)) in *.
  exists (str_or (fst (not_applicable_case (normalised (x_status x))
                         (x_deregistration_date x))) "Unknown"), r.
  split; [rewrite Hd; apply assemble_status|].
  split; [|split; [exact Hr|]].
  - unfold str_or.
    destruct (fst (not_applicable_case (normalised (x_status x))
                     (x_deregistration_date x))); discriminate.
  - intros Hstatus Hna. subst x. unfold not_applicable_case, normalised.
    rewrite Hstatus, Hna. reflexivity.
Qed.

End SuccessfulLookup.

(** Scenario 4 of the specification, run end to end, as a witness of C5. *)
Lemma not_applicable_date_means_approved_witness :
  let d := fst (lookup_single_awrs (mock_registry 200 200 not_applicable_page) timestamp
                  "xaaw00001234567" (JStr "Acme")) in
  d !! "deregistration_date" = Some (JStr "") /\ d !! "status" = Some (JStr "Approved").
Proof.
  destruct (not_applicable_date_means_approved
              (mock_registry 200 200 not_applicable_page)
              timestamp "xaaw00001234567" (JStr "Acme")) as (r & Hr & _ & Hpage).
  - vm_compute. reflexivity.
  - vm_compute in Hr. injection Hr as <-.
    apply Hpage; vm_compute; reflexivity.
Defined.

(** A witness of C10: a page with a business name and nothing else. *)
Lemma successful_status_not_empty_witness :
  fst (lookup_single_awrs
         (mock_registry 200 200 (results_page [("Business name", "Acme Ltd")]))
         timestamp "xaaw00001234567" (JStr "Acme")) !! "status"
  = Some (JStr "Unknown").
Proof.
  destruct (successful_status_not_empty
              (mock_registry 200 200 (results_page [("Business name", "Acme Ltd")]))
              timestamp "xaaw00001234567" (JStr "Acme"))
    as (status & r & Hstatus & _ & Hr & Hunknown).
  - vm_compute. reflexivity.
  - vm_compute in Hr. injection Hr as <-.
    rewrite Hstatus, Hunknown by (vm_compute; reflexivity). reflexivity.
Defined.

(** ** C7, C8: the answers of the webhook *)






(** A request with a number that is not blank is handed to the lookup, with
    the number trimmed and the supplier as received (empty when missing). *)
Lemma webhook_handler_invokes_lookup (site : registry) (now : string)
  (m : gmap string json) (s : string) :
  m !! "awrs_number" = Some (JStr s) ->
  Str.strip s <> "" ->
  webhook_handler site now (Parsed (JObj m))
  = lookup_single_awrs site now (Str.strip s) (default (JStr "") (m !! "supplier_name")).
Proof.
  intros Hm Hs.
  unfold webhook_handler, webhook_body.
  assert (Ht : truthy (JObj m) = true).
  { cbn [truthy]. rewrite bool_decide_eq_false_2; [reflexivity|].
    intros ->. rewrite lookup_empty in Hm. discriminate. }
  rewrite Ht. cbn [data_get]. rewrite Hm. cbn [default from_option id json_strip].
  destruct (Str.strip s) eqn:E; [contradiction|]. cbn [Str.is_empty].
  destruct (lookup_single_awrs _ _ _ _). reflexivity.
Qed.




(** C8. If the number of the request is missing or trims to the empty string,
    the webhook answers at once with [success] false and the error
    "No AWRS number provided"; no request is made, and the run is not that of
    any lookup. *)
Theorem missing_number_answers_at_once (site : registry) (now : string) (j : json) :
  number_missing_or_blank j ->
  fst (webhook_handler site now (Parsed j)) !! "success" = Some (JBool false) /\
  fst (webhook_handler site now (Parsed j)) !! "error"
  = Some (JStr "No AWRS number provided") /\
  snd (webhook_handler site now (Parsed j)) = [] /\
  (forall awrs_number supplier_name,
     snd (webhook_handler site now (Parsed j))
     <> snd (lookup_single_awrs site now awrs_number supplier_name)).
Proof.
  intros Hj.
  assert (H : webhook_handler site now (Parsed j)
              = (webhook_failure now "No AWRS number provided", [])).
  { unfold webhook_handler, webhook_body.
    destruct Hj as [Hf|(m & -> & Hm)].
    - rewrite Hf. reflexivity.
    - destruct (truthy (JObj m)); cbn [data_get].
      + destruct Hm as [Hm|(s & Hm & Hs)]; rewrite Hm;
          cbn [default from_option id json_strip].
        * reflexivity.
        * rewrite Hs. reflexivity.
      + reflexivity. }
  rewrite H. cbn [fst snd].
  split; [apply webhook_failure_success|].
  split; [apply webhook_failure_error|].
  split; [reflexivity|].
  intros a s E. symmetry in E.
  exact (ending_log_not_empty site now a s _ _ (lookup_single_awrs_ends site now a s) E).
Qed.

(** Scenario 3 of the specification, as a witness of C8. *)
Lemma missing_number_answers_at_once_witness :
  let run := webhook_handler (mock_registry 200 200 (results_page [])) timestamp
               (Parsed (JObj {[ "awrs_number" := JStr "  ";
                                "supplier_name" := JStr "Acme" ]})) in
  fst run !! "success" = Some (JBool false) /\
  fst run !! "error" = Some (JStr "No AWRS number provided") /\
  snd run = [].
Proof.
  destruct (missing_number_answers_at_once (mock_registry 200 200 (results_page []))
              timestamp
              (JObj {[ "awrs_number" := JStr "  "; "supplier_name" := JStr "Acme" ]}))
    as (H1 & H2 & H3 & _).
  - right. eexists. split; [reflexivity|]. right. exists "  ".
    split; vm_compute; reflexivity.
  - repeat split; assumption.
Defined.

(** * Further properties *)

(** ** Trimming *)

Lemma lstrip_starts_clean (s : string) : starts_clean (Str.lstrip s).
Proof.
  induction s as [|c s IH]; simpl; [exact I|].
  destruct (Char.is_space c) eqn:Hc; [exact IH|exact Hc].
Qed.

Lemma lstrip_clean (s : string) : starts_clean s -> Str.lstrip s = s.
Proof. destruct s as [|c s]; simpl; [reflexivity|]. intros ->. reflexivity. Qed.

Lemma rstrip_starts_clean (s : string) : starts_clean s -> starts_clean (Str.rstrip s).
Proof.
  destruct s as [|c s]; simpl; [auto|]. intros Hc. rewrite Hc. exact Hc.
Qed.

Lemma rstrip_rstrip (s : string) : Str.rstrip (Str.rstrip s) = Str.rstrip s.
Proof.
  induction s as [|c s IH]; simpl; [reflexivity|].
  destruct (Char.is_space c && Str.is_empty (Str.rstrip s)) eqn:E; [reflexivity|].
  simpl. rewrite IH, E. reflexivity.
Qed.

Lemma strip_strip (s : string) : Str.strip (Str.strip s) = Str.strip s.
Proof.
  unfold Str.strip.
  rewrite (lstrip_clean (Str.rstrip (Str.lstrip s)))
    by apply rstrip_starts_clean, lstrip_starts_clean.
  apply rstrip_rstrip.
Qed.

Lemma lstrip_map (f : ascii -> ascii) (s : string) :
  (forall c, Char.is_space (f c) = Char.is_space c) ->
  Str.lstrip (Str.map f s) = Str.map f (Str.lstrip s).
Proof.
  intros Hf. induction s as [|c s IH]; simpl; [reflexivity|].
  rewrite Hf. destruct (Char.is_space c); [exact IH|reflexivity].
Qed.

Lemma rstrip_map (f : ascii -> ascii) (s : string) :
  (forall c, Char.is_space (f c) = Char.is_space c) ->
  Str.rstrip (Str.map f s) = Str.map f (Str.rstrip s).
Proof.
  intros Hf. induction s as [|c s IH]; simpl; [reflexivity|].
  rewrite Hf, IH, map_is_empty.
  destruct (Char.is_space c && Str.is_empty (Str.rstrip s)); reflexivity.
Qed.

Lemma strip_map (f : ascii -> ascii) (s : string) :
  (forall c, Char.is_space (f c) = Char.is_space c) ->
  Str.strip (Str.map f s) = Str.map f (Str.strip s).
Proof.
  intros Hf. unfold Str.strip. rewrite lstrip_map, rstrip_map by exact Hf. reflexivity.
Qed.

Lemma filter_lstrip (p : ascii -> bool) (s : string) :
  (forall c, Char.is_space c = true -> p c = false) ->
  Str.filter p (Str.lstrip s) = Str.filter p s.
Proof.
  intros Hp. induction s as [|c s IH]; simpl; [reflexivity|].
  destruct (Char.is_space c) eqn:Hc; [|reflexivity].
  rewrite (Hp c Hc). exact IH.
Qed.

Lemma filter_rstrip (p : ascii -> bool) (s : string) :
  (forall c, Char.is_space c = true -> p c = false) ->
  Str.filter p (Str.rstrip s) = Str.filter p s.
Proof.
  intros Hp. induction s as [|c s IH]; simpl; [reflexivity|].
  destruct (Char.is_space c) eqn:Hc; simpl.
  - rewrite (Hp c Hc).
    destruct (Str.is_empty (Str.rstrip s)) eqn:E.
    + apply is_empty_true in E. rewrite E in IH. exact IH.
    + simpl. rewrite (Hp c Hc). exact IH.
  - rewrite IH. reflexivity.
Qed.

Lemma filter_strip (p : ascii -> bool) (s : string) :
  (forall c, Char.is_space c = true -> p c = false) ->
  Str.filter p (Str.strip s) = Str.filter p s.
Proof.
  intros Hp. unfold Str.strip. rewrite filter_rstrip, filter_lstrip by exact Hp. reflexivity.
Qed.

Lemma starts_clean_app (a b : string) :
  Str.is_empty a = false -> starts_clean a -> starts_clean (a ++ b).
Proof. destruct a; [discriminate|]. intros _ H. exact H. Qed.

Lemma lstrip_upper (s : string) : Str.lstrip (Str.upper s) = Str.upper (Str.lstrip s).
Proof.
  induction s as [|c s IH]; [reflexivity|].
  cbn [Str.lstrip]. destruct (Char.is_space c) eqn:Hc.
  - rewrite upper_cons, (space_upper c Hc), append_cons.
    cbn [Str.lstrip]. rewrite Hc. exact IH.
  - apply lstrip_clean. rewrite upper_cons.
    apply starts_clean_app; [apply upper_char_not_empty|apply upper_starts_clean, Hc].
Qed.

Lemma rstrip_app (a b : string) :
  Str.rstrip (a ++ b) = if Str.is_empty (Str.rstrip b) then Str.rstrip a else a ++ Str.rstrip b.
Proof.
  induction a as [|c a IH].
  - change ("" ++ b) with b. change ("" ++ Str.rstrip b) with (Str.rstrip b).
    destruct (Str.rstrip b); reflexivity.
  - rewrite append_cons. cbn [Str.rstrip]. cbv zeta. rewrite IH.
    destruct (Str.is_empty (Str.rstrip b)) eqn:E; [reflexivity|].
    rewrite append_is_empty, E, !andb_false_r. reflexivity.
Qed.

Lemma rstrip_upper (s : string) : Str.rstrip (Str.upper s) = Str.upper (Str.rstrip s).
Proof.
  induction s as [|c s IH]; [reflexivity|].
  rewrite upper_cons, rstrip_app, IH, upper_is_empty.
  cbn [Str.rstrip]. cbv zeta.
  destruct (Str.is_empty (Str.rstrip s)) eqn:E.
  - apply is_empty_true in E. rewrite E.
    destruct (Char.is_space c) eqn:Hc; cbn [andb].
    + rewrite (space_upper c Hc). cbn [Str.rstrip Str.is_empty]. rewrite Hc. reflexivity.
    + rewrite (rstrip_upper_char c Hc), upper_cons. symmetry. apply append_empty_r.
  - rewrite andb_false_r. reflexivity.
Qed.

Lemma upper_strip (s : string) : Str.strip (Str.upper s) = Str.upper (Str.strip s).
Proof. unfold Str.strip. rewrite lstrip_upper, rstrip_upper. reflexivity. Qed.

Lemma space_lower (c : ascii) : Char.is_space (Char.lower c) = Char.is_space c.
Proof. by_cases_on_char c. Qed.

Lemma lower_lower (c : ascii) : Char.lower (Char.lower c) = Char.lower c.
Proof. by_cases_on_char c. Qed.

Lemma lower_strip (s : string) : Str.strip (Str.lower s) = Str.lower (Str.strip s).
Proof. apply strip_map, space_lower. Qed.

Lemma upper_stripped_upper_strip (x : string) :
  upper_stripped (Str.upper (Str.strip x)) = upper_stripped x.
Proof.
  unfold upper_stripped, sub_non_alnum.
  rewrite upper_idem, <- upper_strip.
  apply (filter_strip _ _ space_not_alnum).
Qed.

(** ** The identifier formatter, on every input *)

Lemma format_awrs_cases (urn : option string) :
  format_awrs urn =
  if is_urn_shape (upper_stripped (or_empty urn)) then regroup (upper_stripped (or_empty urn))
  else Str.upper (Str.strip (or_empty urn)).
Proof. apply format_awrs_unfold. Qed.

Lemma shape_inv (u : string) :
  is_urn_shape u = true ->
  exists a1 a2 a3 a4 d1 d2 d3 d4 d5 d6 d7 d8 d9 d10 d11,
    u = String a1 (String a2 (String a3 (String a4 (String d1 (String d2 (String d3
       (String d4 (String d5 (String d6 (String d7 (String d8 (String d9 (String d10
       (String d11 ""))))))))))))))
    /\ Forall (fun c => Char.is_alpha c = true) [a1; a2; a3; a4]
    /\ Forall (fun c => Char.is_digit c = true) [d1; d2; d3; d4; d5; d6; d7; d8; d9; d10; d11].
Proof.
  unfold is_urn_shape. intros H.
  destruct (String.length u =? 15)%nat eqn:Hlen; [|discriminate H].
  apply Nat.eqb_eq, length_15_inv in Hlen.
  destruct Hlen as (c1 & c2 & c3 & c4 & c5 & c6 & c7 & c8 & c9 & c10 & c11 & c12
                    & c13 & c14 & c15 & ->).
  cbn [andb Str.take Str.drop Str.all] in H.
  repeat match goal with
         | E : _ && _ = true |- _ => apply andb_prop in E as [? ?]
         end.
  exists c1, c2, c3, c4, c5, c6, c7, c8, c9, c10, c11, c12, c13, c14, c15.
  repeat split; repeat (constructor 2; [assumption|]); constructor 1.
Qed.

Lemma alpha_not_space (c : ascii) : Char.is_alpha c = true -> Char.is_space c = false.
Proof. by_cases_on_char c. Qed.

Lemma digit_not_space (c : ascii) : Char.is_digit c = true -> Char.is_space c = false.
Proof. by_cases_on_char c. Qed.

Lemma rstrip_snoc (s : string) (c : ascii) :
  Char.is_space c = false -> Str.rstrip (s ++ String c "") = s ++ String c "".
Proof.
  intros Hc. induction s as [|d s IH].
  - simpl. rewrite Hc. reflexivity.
  - change (String d s ++ String c "") with (String d (s ++ String c "")).
    cbn [Str.rstrip]. rewrite IH.
    replace (Str.is_empty (s ++ String c "")) with false by (destruct s; reflexivity).
    rewrite andb_false_r. reflexivity.
Qed.

Section Regrouped.

Variable u : string.
Hypothesis Hshape : is_urn_shape u = true.

Lemma regroup_canonical : is_canonical (regroup u) = true.
Proof.
  destruct (shape_inv u Hshape)
    as (a1 & a2 & a3 & a4 & d1 & d2 & d3 & d4 & d5 & d6 & d7 & d8 & d9 & d10 & d11
        & -> & Ha & Hd).
  use_char_facts.
  unfold is_canonical, regroup.
  cbn [Str.take Str.drop Str.slice Nat.sub].
  cbv [String.append].
  cbn [String.length Nat.eqb andb Str.take Str.drop Str.slice Nat.sub Str.all].
  repeat match goal with
         | H : ?p = true |- context [?p] => rewrite H
         end.
  reflexivity.
Qed.

Lemma shape_ascii : Str.all Char.is_ascii u = true.
Proof.
  destruct (shape_inv u Hshape)
    as (a1 & a2 & a3 & a4 & d1 & d2 & d3 & d4 & d5 & d6 & d7 & d8 & d9 & d10 & d11
        & -> & Ha & Hd).
  use_char_facts.
  cbn [Str.all].
  rewrite_char_facts.
  reflexivity.
Qed.

Lemma upper_regroup : Str.upper (regroup u) = regroup (Str.upper u).
Proof.
  rewrite (upper_simple u shape_ascii).
  rewrite (upper_simple (regroup u) (canonical_ascii _ regroup_canonical)).
  destruct (shape_inv u Hshape)
    as (a1 & a2 & a3 & a4 & d1 & d2 & d3 & d4 & d5 & d6 & d7 & d8 & d9 & d10 & d11
        & -> & _ & _).
  reflexivity.
Qed.

Lemma filter_regroup : Str.filter Char.is_alnum (regroup u) = u.
Proof.
  destruct (shape_inv u Hshape)
    as (a1 & a2 & a3 & a4 & d1 & d2 & d3 & d4 & d5 & d6 & d7 & d8 & d9 & d10 & d11
        & -> & Ha & Hd).
  use_char_facts.
  repeat match goal with
         | H : Char.is_alpha _ = true |- _ => apply alpha_alnum in H
         | H : Char.is_digit _ = true |- _ => apply digit_alnum in H
         end.
  unfold regroup.
  cbn [Str.take Str.drop Str.slice Nat.sub].
  cbv [String.append].
  cbn [Str.filter].
  repeat match goal with
         | H : ?p = true |- context [?p] => rewrite H
         end.
  reflexivity.
Qed.

Lemma strip_regroup : Str.strip (regroup u) = regroup u.
Proof.
  destruct (shape_inv u Hshape)
    as (a1 & a2 & a3 & a4 & d1 & d2 & d3 & d4 & d5 & d6 & d7 & d8 & d9 & d10 & d11
        & -> & Ha & Hd).
  use_char_facts.
  unfold Str.strip.
  rewrite lstrip_clean by (apply alpha_not_space; assumption).
  apply (rstrip_snoc
           (String a1 (String a2 (String a3 (String a4 (String " " (String d1 (String d2
              (String d3 (String d4 (String " " (String d5 (String d6 (String d7
              (String d8 (String " " (String d9 (String d10 ""))))))))))))))))) d11).
  apply digit_not_space. assumption.
Qed.

End Regrouped.

Lemma upper_upper_stripped (x : string) : Str.upper (upper_stripped x) = upper_stripped x.
Proof. apply upper_fixed, all_filter, upper_keeps_case. Qed.

(** X1. Formatting is idempotent on every input, in the canonical shape or
    not: formatting the result again changes nothing. *)
Theorem format_awrs_idempotent (urn : option string) :
  format_awrs (Some (format_awrs urn)) = format_awrs urn.
Proof.
  rewrite (format_awrs_cases urn).
  set (x := or_empty urn). set (u := upper_stripped x).
  destruct (is_urn_shape u) eqn:Hshape.
  - rewrite (format_awrs_canonical _ (regroup_canonical u Hshape)).
    rewrite (upper_regroup u Hshape). unfold u. rewrite upper_upper_stripped. reflexivity.
  - rewrite format_awrs_cases. cbn [or_empty].
    rewrite upper_stripped_upper_strip. fold u. rewrite Hshape.
    rewrite upper_strip, strip_strip. apply upper_idem.
Qed.

(** X2. Formatting keeps the letters and digits that the code reads in its
    input: the result, put in upper case and stripped of every character
    outside [A-Za-z0-9], is the input put in upper case and stripped in the
    same way.  Beyond upper-casing, only separators and white space can
    change. *)
Theorem format_awrs_keeps_letters_and_digits (urn : option string) :
  upper_stripped (format_awrs urn) = upper_stripped (or_empty urn).
Proof.
  rewrite (format_awrs_cases urn).
  set (x := or_empty urn). set (u := upper_stripped x).
  destruct (is_urn_shape u) eqn:Hshape.
  - unfold upper_stripped at 1, sub_non_alnum.
    rewrite (upper_regroup u Hshape). unfold u at 1. rewrite upper_upper_stripped.
    apply (filter_regroup u Hshape).
  - apply upper_stripped_upper_strip.
Qed.

(** X3. The result of formatting is in upper case and has no white space at
    either end. *)
Theorem format_awrs_upper_and_trimmed (urn : option string) :
  Str.upper (format_awrs urn) = format_awrs urn /\
  Str.strip (format_awrs urn) = format_awrs urn.
Proof.
  rewrite (format_awrs_cases urn).
  set (x := or_empty urn). set (u := upper_stripped x).
  destruct (is_urn_shape u) eqn:Hshape.
  - split.
    + rewrite (upper_regroup u Hshape). unfold u. rewrite upper_upper_stripped. reflexivity.
    + apply strip_regroup, Hshape.
  - split.
    + apply upper_idem.
    + rewrite upper_strip, strip_strip. reflexivity.
Qed.

(** X4. Two writings of the same well-formed number are formatted to the same
    string, a correctly spaced URN: two inputs that, once in upper case and
    stripped of every character outside [A-Za-z0-9], are the same four
    letters and eleven digits, whatever their separators, spacing and
    case. *)
Theorem format_awrs_ignores_separators (x y : string) :
  upper_stripped x = upper_stripped y ->
  is_urn_shape (upper_stripped x) = true ->
  format_awrs (Some x) = format_awrs (Some y) /\
  is_canonical (format_awrs (Some x)) = true.
Proof.
  intros Hxy Hshape.
  rewrite !format_awrs_cases. cbn [or_empty]. rewrite <- Hxy, Hshape.
  split; [reflexivity|]. apply regroup_canonical, Hshape.
Qed.

Lemma format_awrs_ignores_separators_witness :
  format_awrs (Some "xaaw-0000-1234-567") = format_awrs (Some " XAAW 00001234 567 ") /\
  is_canonical (format_awrs (Some "xaaw-0000-1234-567")) = true.
Proof.
  apply (format_awrs_ignores_separators "xaaw-0000-1234-567" " XAAW 00001234 567 ");
    vm_compute; reflexivity.
Defined.

(** ** The status normaliser, on every input *)

Lemma normalise_status_other (raw : option string) :
  ~ In (status_key raw) status_keys ->
  normalise_status raw = Str.strip (or_empty raw).
Proof.
  intros H. unfold normalise_status. fold (status_key raw).
  assert (Hk : forall k, In k status_keys -> String.eqb (status_key raw) k = false)
    by (intros k Hk; eapply eqb_false_of_not_in; eauto).
  rewrite is_empty_eqb. cbn [existsb].
  rewrite !Hk by (unfold status_keys; simpl; tauto).
  reflexivity.
Qed.

(** A result is one of the canonical statuses, or the key is not in the table
    and the result is the input trimmed. *)
Lemma normalise_status_range (raw : option string) :
  In (normalise_status raw) canonical_statuses \/
  (~ In (status_key raw) status_keys /\ normalise_status raw = Str.strip (or_empty raw)).
Proof.
  destruct (List.in_dec String.string_dec (status_key raw) status_keys) as [Hin|Hnin].
  - left. unfold status_keys in Hin. simpl In in Hin.
    unfold normalise_status. fold (status_key raw).
    repeat (destruct Hin as [Hin|Hin]; [rewrite <- Hin; vm_compute; tauto|]).
    contradiction.
  - right. split; [exact Hnin|apply normalise_status_other, Hnin].
Qed.

Lemma status_key_strip (raw : option string) :
  status_key (Some (Str.strip (or_empty raw))) = status_key raw.
Proof. unfold status_key. cbn [or_empty]. rewrite strip_strip. reflexivity. Qed.

(** X5. The normaliser never returns the empty string, and what it returns has
    no white space at either end. *)
Theorem normalise_status_not_empty_and_trimmed (raw : option string) :
  normalise_status raw <> "" /\
  Str.strip (normalise_status raw) = normalise_status raw.
Proof.
  destruct (normalise_status_range raw) as [Hin|[Hnin ->]].
  - unfold canonical_statuses in Hin. simpl In in Hin.
    repeat (destruct Hin as [<-|Hin]; [split; [discriminate|reflexivity]|]).
    contradiction.
  - split; [|apply strip_strip].
    intros E. apply Hnin. unfold status_key. rewrite E.
    unfold status_keys. simpl. tauto.
Qed.

(** X6. The normaliser is idempotent: a normalised status, canonical or not,
    normalises to itself. *)
Theorem normalise_status_idempotent (raw : option string) :
  normalise_status (Some (normalise_status raw)) = normalise_status raw.
Proof.
  destruct (normalise_status_range raw) as [Hin|[Hnin ->]].
  - unfold canonical_statuses in Hin. simpl In in Hin.
    repeat (destruct Hin as [<-|Hin]; [reflexivity|]).
    contradiction.
  - rewrite normalise_status_other by (rewrite status_key_strip; exact Hnin).
    cbn [or_empty]. apply strip_strip.
Qed.

(** ** The label extractor, on every label and document *)

Lemma all_lstrip (p : ascii -> bool) (s : string) :
  Str.all p s = true -> Str.all p (Str.lstrip s) = true.
Proof.
  induction s as [|c s IH]; simpl; [auto|].
  intros H. apply andb_prop in H as [Hc Hs].
  destruct (Char.is_space c); [auto|]. simpl. rewrite Hc, Hs. reflexivity.
Qed.

Lemma all_rstrip (p : ascii -> bool) (s : string) :
  Str.all p s = true -> Str.all p (Str.rstrip s) = true.
Proof.
  induction s as [|c s IH]; simpl; [auto|].
  intros H. apply andb_prop in H as [Hc Hs].
  destruct (Char.is_space c && Str.is_empty (Str.rstrip s)); [reflexivity|].
  simpl. rewrite Hc, IH by exact Hs. reflexivity.
Qed.

Lemma all_strip (p : ascii -> bool) (s : string) :
  Str.all p s = true -> Str.all p (Str.strip s) = true.
Proof. intros H. apply all_rstrip, all_lstrip, H. Qed.

Lemma star_cap_sound (cls : ascii -> bool) (k : string -> string -> option string)
  (acc s g : string) :
  Re.star_cap cls k acc s = Some g ->
  exists cap rest, k cap rest = Some g /\
                   (Str.all cls acc = true -> Str.all cls cap = true).
Proof.
  revert acc. induction s as [|c s IH]; intros acc; simpl; intros H.
  - exists acc, "". auto.
  - destruct (cls c) eqn:Hc; [|exists acc, (String c s); auto].
    destruct (Re.star_cap cls k (acc ++ String c "") s) as [g'|] eqn:Hs.
    + injection H as ->.
      destruct (IH _ Hs) as (cap & rest & Hk & Hall).
      exists cap, rest. split; [exact Hk|].
      intros Hacc. apply Hall. rewrite all_app, Hacc. simpl. rewrite Hc. reflexivity.
    + exists acc, (String c s). auto.
Qed.

(** What a match captures is made of characters of the class of its group. *)
Lemma match_here_captures (cls : ascii -> bool) (ignorecase : bool) (re : list item) :
  groups_of cls re ->
  forall g0 s g,
    Re.match_here ignorecase re g0 s = Some g ->
    Str.all cls g0 = true -> Str.all cls g = true.
Proof.
  induction 1 as [|it re Hit _ IH]; intros g0 s g H Hg0.
  - simpl in H. congruence.
  - destruct it as [c|cls'|c|cls']; cbn [Re.match_here] in H.
    + destruct s as [|d s]; [discriminate H|].
      destruct (Re.lit ignorecase c d); [eauto|discriminate H].
    + apply star_sound in H as (s' & _ & H). eauto.
    + destruct s as [|d s].
      * eauto.
      * destruct (Re.lit ignorecase c d); [|eauto].
        destruct (Re.match_here ignorecase re g0 s) eqn:E; [|eauto].
        injection H as <-. eauto.
    + subst cls'. destruct s as [|d s]; [discriminate H|].
      destruct (cls d) eqn:Hd; [|discriminate H].
      apply star_cap_sound in H as (cap & rest & H & Hall).
      apply (IH _ _ _ H). apply Hall. simpl. rewrite Hd. reflexivity.
Qed.

Lemma search_sound (ignorecase : bool) (re : list item) (s g : string) :
  Re.search ignorecase re s = Some g ->
  exists t, Re.match_here ignorecase re "" t = Some g.
Proof.
  induction s as [|c s IH]; simpl.
  - destruct (Re.match_here ignorecase re "" "") eqn:E; [|discriminate].
    intros [= <-]. eauto.
  - destruct (Re.match_here ignorecase re "" (String c s)) eqn:E.
    + intros [= <-]. eauto.
    + exact IH.
Qed.

Lemma groups_of_literals (cls : ascii -> bool) (lits : list ascii) :
  groups_of cls (List.map Lit lits).
Proof.
  induction lits as [|c lits IH]; [constructor 1|constructor 2; [exact I|exact IH]].
Qed.

Lemma groups_of_patterns (label : string) :
  groups_of Char.not_newline (inline_pattern label) /\
  groups_of Char.not_newline (next_line_pattern label).
Proof.
  unfold inline_pattern, next_line_pattern, Re.escape.
  split; apply Forall_app; (split; [apply groups_of_literals|]);
    repeat (constructor 2; [first [exact I|reflexivity]|]); constructor 1.
Qed.

Lemma not_space_not_newline (c : ascii) :
  Char.is_space c = false -> Char.not_newline c = true.
Proof. by_cases_on_char c. Qed.

Lemma split_go_words (cur s : string) :
  Str.all Char.not_newline cur = true ->
  Forall (fun w => Str.all Char.not_newline w = true) (Str.split_go cur s).
Proof.
  revert cur. induction s as [|c s IH]; intros cur Hcur; simpl.
  - destruct (Str.is_empty cur); repeat constructor; assumption.
  - destruct (Char.is_space c) eqn:Hc.
    + apply Forall_app. split; [|apply IH; reflexivity].
      destruct (Str.is_empty cur); repeat constructor; assumption.
    + apply IH. rewrite all_app, Hcur. simpl.
      rewrite (not_space_not_newline c Hc). reflexivity.
Qed.

Lemma join_words (l : list string) :
  Forall (fun w => Str.all Char.not_newline w = true) l ->
  Str.all Char.not_newline (Str.join " " l) = true.
Proof.
  induction 1 as [|w l Hw Hl IH]; [reflexivity|].
  destruct l as [|w' l]; [exact Hw|].
  change (Str.join " " (w :: w' :: l)) with (w ++ " " ++ Str.join " " (w' :: l)).
  rewrite !all_app, Hw, IH. reflexivity.
Qed.

Lemma definition_list_match_value (label : string) (dts : list (node * list node))
  (v : string) :
  definition_list_match label dts = Some v -> is_value v.
Proof.
  induction dts as [|[dt following] rest IH]; simpl; [discriminate|].
  destruct (String.eqb _ _); [|exact IH].
  destruct (Soup.find_next_sibling "dd" following) as [dd|]; [|exact IH].
  intros [= <-]. split; [apply strip_strip|].
  apply all_strip, join_words, split_go_words. reflexivity.
Qed.

Lemma search_value (re : list item) (text v : string) :
  groups_of Char.not_newline re ->
  option_map Str.strip (Re.search true re text) = Some v -> is_value v.
Proof.
  intros Hre H.
  destruct (Re.search true re text) as [g|] eqn:E; [|discriminate H].
  injection H as <-.
  apply search_sound in E as (t & E).
  split; [apply strip_strip|].
  apply all_strip. exact (match_here_captures _ _ _ Hre _ _ _ E eq_refl).
Qed.

(** X8. Whatever the label and the document, the extracted value has no white
    space at either end and no line break inside. *)
Theorem find_after_label_trimmed_single_line (label : string) (soup : node) :
  Str.strip (find_after_label label soup) = find_after_label label soup /\
  Str.all Char.not_newline (find_after_label label soup) = true.
Proof.
  unfold find_after_label. cbv zeta.
  destruct (definition_list_match _ _) eqn:E1.
  { exact (definition_list_match_value _ _ _ E1). }
  destruct (inline_match _ _) eqn:E2.
  { exact (search_value _ _ _ (proj1 (groups_of_patterns label)) E2). }
  destruct (next_line_match _ _) eqn:E3.
  { exact (search_value _ _ _ (proj2 (groups_of_patterns label)) E3). }
  split; reflexivity.
Qed.

Lemma list_ascii_of_map (f : ascii -> ascii) (s : string) :
  list_ascii_of_string (Str.map f s) = List.map f (list_ascii_of_string s).
Proof. induction s as [|c s IH]; simpl; [reflexivity|]. rewrite IH. reflexivity. Qed.

Lemma after_literals_nocase (l1 l2 : list ascii) (s : string) :
  List.map Char.lower l1 = List.map Char.lower l2 ->
  after_literals true l1 s = after_literals true l2 s.
Proof.
  revert l2 s. induction l1 as [|c1 l1 IH]; intros [|c2 l2] s H; try discriminate H.
  - reflexivity.
  - injection H as Hc Hl. simpl.
    destruct s as [|d s]; [reflexivity|].
    unfold Re.lit, Char.eqb_nocase. rewrite Hc, (IH l2 s Hl). reflexivity.
Qed.

Lemma search_ext (ignorecase : bool) (re re' : list item) (s : string) :
  (forall t, Re.match_here ignorecase re "" t = Re.match_here ignorecase re' "" t) ->
  Re.search ignorecase re s = Re.search ignorecase re' s.
Proof.
  intros H. induction s as [|c s IH]; simpl; rewrite H; [reflexivity|].
  rewrite IH. reflexivity.
Qed.

Lemma definition_list_match_nocase (l1 l2 : string) (dts : list (node * list node)) :
  Str.lower l1 = Str.lower l2 ->
  definition_list_match l1 dts = definition_list_match l2 dts.
Proof.
  intros H. induction dts as [|[dt following] rest IH]; simpl; [reflexivity|].
  rewrite H, IH. reflexivity.
Qed.

(** X9. The case of the letters of an ASCII label does not matter: two ASCII
    labels that are equal in lower case extract the same value from every
    document. *)
Theorem find_after_label_ignores_label_case (l1 l2 : string) (soup : node) :
  Str.all Char.is_ascii l1 = true ->
  Str.all Char.is_ascii l2 = true ->
  Str.lower l1 = Str.lower l2 ->
  find_after_label l1 soup = find_after_label l2 soup.
Proof.
  intros _ _ H.
  assert (Hl : List.map Char.lower (list_ascii_of_string l1)
               = List.map Char.lower (list_ascii_of_string l2)).
  { rewrite <- !list_ascii_of_map. f_equal. exact H. }
  assert (Hm : forall tail t,
             Re.match_here true (Re.escape l1 ++ tail) "" t
             = Re.match_here true (Re.escape l2 ++ tail) "" t).
  { intros tail t. unfold Re.escape. rewrite !match_here_literals.
    rewrite (after_literals_nocase _ _ t Hl). reflexivity. }
  unfold find_after_label, inline_match, next_line_match, inline_pattern, next_line_pattern.
  rewrite (definition_list_match_nocase l1 l2 _ H).
  rewrite (search_ext true _ _ _ (Hm [Star Char.is_space; Opt ":"%char; Star Char.is_space;
                                      Group Char.not_newline])).
  rewrite (search_ext true _ _ _ (Hm [Star Char.is_space; Lit LF; Star Char.is_space;
                                      Group Char.not_newline])).
  reflexivity.
Qed.

(** A witness of X9: the label in capitals finds the status in the running
    text of the page, as the label in small letters does. *)
Lemma find_after_label_ignores_label_case_witness :
  find_after_label "REGISTRATION STATUS" blank_definition_page
  = find_after_label "registration status" blank_definition_page /\
  find_after_label "registration status" blank_definition_page = "Approved".
Proof.
  split; [|reflexivity].
  apply (find_after_label_ignores_label_case "REGISTRATION STATUS" "registration status");
    reflexivity.
Defined.

(** ** The requests of a lookup *)

Ltac run_step site :=
  match goal with
  | |- context [match site ?l ?rq with Fails _ => _ | Answers _ => _ end] =>
      destruct (site l rq) eqn:?
  | |- context [if negb (status_code ?r =? 200)%Z then _ else _] =>
      destruct (Z.eqb_spec (status_code r) 200)
  | |- context [match find_check_urn ?l with _ => _ end] =>
      destruct (find_check_urn l) eqn:?
  | |- context [if negb (Str.is_empty ?u) && negb (Str.startswith ?p ?u) then _ else _] =>
      destruct (negb (Str.is_empty u) && negb (Str.startswith p u)) eqn:?
  | |- context [match Soup.find ?n ?s with _ => _ end] =>
      destruct (Soup.find n s) eqn:?
  | |- context [match find_text_input ?l ?s with _ => _ end] =>
      destruct (find_text_input l s) eqn:?
  end; cbn beta iota zeta delta [negb fst snd].

Ltac run_lookup site :=
  unfold lookup_single_awrs, try_except, lookup_body, bind, call, ret, return_;
  repeat run_step site.

Lemma absolute_action (action : string) :
  Str.startswith "http"
    (if negb (Str.startswith "http" action) then ORIGIN ++ action else action) = true.
Proof.
  destruct (Str.startswith "http" action) eqn:E; [exact E|reflexivity].
Qed.

(** The requests of a lookup: the landing page, then at most one page of the
    registry's own site, then at most one submission; the submission goes to
    an absolute address and carries the fields of the last page fetched. *)
Lemma lookup_log_shape (site : registry) (now awrs_number : string) (supplier_name : json) :
  exists nav post,
    snd (lookup_single_awrs site now awrs_number supplier_name)
    = (Get HMRC_URL :: nav ++ post)%list /\
    (nav = [] \/ exists u, nav = [Get (ORIGIN ++ u)]) /\
    (post = [] \/
     exists url data,
       post = [Post url data] /\ Str.startswith "http" url = true /\
       exists r text_input,
         answered site (Get HMRC_URL :: nav) = Some r /\
         find_text_input text_selectors (content r) = Some text_input /\
         data = <[Soup.get "name" text_input := format_awrs (Some awrs_number)]>
                  (hidden_fields (hidden_inputs (content r)) ∅)).
Proof.
  run_lookup site.
  all: first [ exists [], []; split; [reflexivity|]
             | eexists [Get _], []; split; [reflexivity|]
             | eexists [], [Post _ _]; split; [reflexivity|]
             | eexists [Get _], [Post _ _]; split; [reflexivity|] ].
  all: split; [first [left; reflexivity | right; eexists; reflexivity]|].
  all: first [ left; reflexivity
             | right; eexists _, _; split; [reflexivity|];
               split; [apply absolute_action|];
               eexists _, _; split;
               [ unfold answered; cbn [rev app] in *;
                 repeat match goal with
                        | H : ?s ?l ?rq = Answers _ |- context [?s ?l ?rq] => rewrite H
                        end; reflexivity
               | unfold text_selectors, hidden_inputs; split; [eassumption|reflexivity] ] ].
Qed.


(** X11. Every address that a lookup fetches begins with the registry's
    origin, and every address it submits a form to begins with "http": a
    relative link or form action is resolved against the origin. *)
Theorem lookup_stays_on_the_registry (site : registry) (now awrs_number : string)
  (supplier_name : json) :
  (forall url,
     In (Get url) (snd (lookup_single_awrs site now awrs_number supplier_name)) ->
     Str.startswith ORIGIN url = true) /\
  (forall url data,
     In (Post url data) (snd (lookup_single_awrs site now awrs_number supplier_name)) ->
     Str.startswith "http" url = true).
Proof.
  destruct (lookup_log_shape site now awrs_number supplier_name)
    as (nav & post & -> & Hnav & Hpost).
  assert (Horigin : forall u, Str.startswith ORIGIN (ORIGIN ++ u) = true) by reflexivity.
  destruct Hnav as [-> | [u ->]];
    destruct Hpost as [-> | (url' & data' & -> & Habs & _)]; cbn [app In]; split;
    intros; repeat match goal with
                   | H : _ \/ _ |- _ => destruct H as [H|H]
                   | H : False |- _ => contradiction
                   | H : Get _ = Get _ |- _ => injection H as <-
                   | H : Post _ _ = Post _ _ |- _ => injection H as <- <-
                   | H : Get _ = Post _ _ |- _ => discriminate H
                   | H : Post _ _ = Get _ |- _ => discriminate H
                   end; first [reflexivity | apply Horigin | exact Habs].
Qed.

(** X12. Whenever a lookup submits the form, the page that carries the form is
    the answer to the request just before, a text input is found on it (the
    first input named "value", else the first named "query", else the first of
    type text), and the submitted fields are the hidden fields of that page
    with the formatted number stored under the name of that text input: the
    number is what the form carries under that name, whatever a hidden field
    of the same name held. *)
Theorem lookup_submits_formatted_number (site : registry) (now awrs_number : string)
  (supplier_name : json) (before after : list request) (url : string)
  (data : gmap (option string) string) :
  snd (lookup_single_awrs site now awrs_number supplier_name)
  = (before ++ Post url data :: after)%list ->
  exists r text_input,
    answered site before = Some r /\
    find_text_input text_selectors (content r) = Some text_input /\
    data = <[Soup.get "name" text_input := format_awrs (Some awrs_number)]>
             (hidden_fields (hidden_inputs (content r)) ∅) /\
    data !! Soup.get "name" text_input = Some (format_awrs (Some awrs_number)).
Proof.
  destruct (lookup_log_shape site now awrs_number supplier_name)
    as (nav & post & -> & Hnav & Hpost).
  intros H.
  assert (Hsame : post = [Post url data] /\ before = Get HMRC_URL :: nav).
  { destruct Hnav as [-> | [u ->]];
      destruct Hpost as [-> | (url' & data' & -> & _)]; cbn [app] in H;
      repeat (destruct before as [|? before]; cbn [app] in H;
              [ try discriminate H; try (injection H as <- <- <-)
              | try discriminate H; injection H as <- H ]);
      try (split; reflexivity).
    all: try (destruct before; discriminate H). }
  destruct Hsame as [-> ->].
  destruct Hpost as [Hpost | (url' & data' & Hpost & _ & r & text_input & Hr & Hinput & Hdata)];
    [discriminate Hpost|].
  injection Hpost as <- <-.
  exists r, text_input. repeat split; try assumption.
  rewrite Hdata. apply lookup_insert_eq.
Qed.

(** A witness of X12: on the search page the text input is named "query", and
    the hidden field is sent along. *)
Lemma lookup_submits_formatted_number_witness :
  exists r text_input,
    answered (mock_registry 200 200 not_applicable_page) [Get HMRC_URL] = Some r /\
    find_text_input text_selectors (content r) = Some text_input /\
    ({[ Some "csrfToken" := "t0k3n"; Some "query" := "XAAW 0000 1234 567" ]}
       : gmap (option string) string)
    = <[Soup.get "name" text_input := format_awrs (Some "xaaw00001234567")]>
        (hidden_fields (hidden_inputs (content r)) ∅) /\
    ({[ Some "csrfToken" := "t0k3n"; Some "query" := "XAAW 0000 1234 567" ]}
       : gmap (option string) string) !! Soup.get "name" text_input
    = Some (format_awrs (Some "xaaw00001234567")).
Proof.
  apply (lookup_submits_formatted_number (mock_registry 200 200 not_applicable_page)
           timestamp "xaaw00001234567" (JStr "Acme") [Get HMRC_URL] []
           (ORIGIN ++ "/check-the-awrs-register/search")).
  vm_compute. reflexivity.
Defined.

(** ** Faults of the network *)

(** Every request of a lookup but the last was answered. *)
Lemma lookup_requests_answered (site : registry) (now awrs_number : string)
  (supplier_name : json) (i : nat) (rq : request) :
  snd (lookup_single_awrs site now awrs_number supplier_name) !! i = Some rq ->
  (S i < length (snd (lookup_single_awrs site now awrs_number supplier_name)))%nat ->
  exists r,
    site (take i (snd (lookup_single_awrs site now awrs_number supplier_name))) rq
    = Answers r.
Proof.
  run_lookup site.
  all: cbn [app length]; intros Hi Hlen;
    destruct i as [|[|[|i]]]; cbn [length] in Hlen; try lia;
    cbn in Hi; injection Hi as <-; cbn [take]; eauto.
Qed.

(** X13. An exception raised by a request never leaves the lookup: the lookup
    stops at that request and returns the Error record whose message is
    "Error during AWRS lookup: " followed by the text of the exception.  A
    request that is not the last of a lookup was answered. *)
Theorem lookup_stops_at_the_failed_request (site : registry) (now awrs_number : string)
  (supplier_name : json) :
  (forall log rq e,
     snd (lookup_single_awrs site now awrs_number supplier_name) = (log ++ [rq])%list ->
     site log rq = Fails e ->
     fst (lookup_single_awrs site now awrs_number supplier_name)
     = failure ("Error during AWRS lookup: " ++ e) awrs_number supplier_name now) /\
  (forall before rq after,
     snd (lookup_single_awrs site now awrs_number supplier_name)
     = (before ++ rq :: after)%list ->
     after <> [] ->
     exists r, site before rq = Answers r).
Proof.
  split.
  - intros log rq e Hlog Hsite.
    pose proof (lookup_single_awrs_ends site now awrs_number supplier_name) as Hend.
    rewrite Hlog in Hend.
    inversion Hend as [log' rq' e' Hs Hd Hl|r' Hs Hc Hd Hl|log' url' r' error Hs He Hd Hl
                      |log' url' data' r' Hs Hc Hd Hl|log' url' data' r' Hs Hc Hd Hl].
    + apply snoc_inv in Hl as [-> ->]. congruence.
    + apply (snoc_inv []) in Hl as [<- <-]. congruence.
    + apply snoc_inv in Hl as [-> <-]. congruence.
    + apply snoc_inv in Hl as [-> <-]. congruence.
    + apply snoc_inv in Hl as [-> <-]. congruence.
  - intros before rq after Hlog Hafter.
    destruct (lookup_requests_answered site now awrs_number supplier_name
                (length before) rq) as [r Hr].
    + rewrite Hlog. rewrite lookup_app_r by lia.
      replace (length before - length before)%nat with 0%nat by lia. reflexivity.
    + rewrite Hlog, length_app. cbn [length].
      destruct after; [contradiction|]. cbn [length]. lia.
    + exists r. rewrite Hlog in Hr. rewrite take_app_length in Hr. exact Hr.
Qed.

Lemma lookup_stops_at_the_failed_request_witness :
  fst (lookup_single_awrs unreachable timestamp "XAAW 0000 1234 567" (JStr "Acme"))
  = failure "Error during AWRS lookup: Connection refused"
      "XAAW 0000 1234 567" (JStr "Acme") timestamp.
Proof.
  apply (proj1 (lookup_stops_at_the_failed_request unreachable timestamp
                  "XAAW 0000 1234 567" (JStr "Acme")) [] (Get HMRC_URL)); reflexivity.
Defined.

(** ** The records of a lookup *)

(** X14. A record answered by the webhook has an [error] field exactly when
    its [success] is false; its [success] is always a boolean. *)
Theorem error_field_iff_failure (site : registry) (now : string) (rq : body) :
  (exists b, fst (webhook_handler site now rq) !! "success" = Some (JBool b)) /\
  (is_Some (fst (webhook_handler site now rq) !! "error") <->
   fst (webhook_handler site now rq) !! "success" = Some (JBool false)).
Proof.
  destruct (webhook_handler_cases site now rq) as [[error ->]|(a & s & ->)].
  - cbn [fst]. rewrite webhook_failure_success, webhook_failure_error.
    split; [eauto|]. split; eauto.
  - destruct (ending_record site now a s _ _ (lookup_single_awrs_ends site now a s))
      as [[error ->]|(r & _ & _ & ->)].
    + rewrite failure_success, failure_error. split; [eauto|]. split; eauto.
    + rewrite assemble_success, assemble_no_error. split; [eauto|].
      split; [intros [x Hx]; discriminate|discriminate].
Qed.




Lemma assemble_business_name (x : extracted) (formatted_urn awrs_number : string)
  (supplier_name : json) (now : string) :
  assemble x formatted_urn awrs_number supplier_name now !! "business_name"
  = Some (JStr (str_or (x_business_name x) "Not found")).
Proof. unfold assemble. destruct (not_applicable_case _ _). dict_lookup. Qed.

Lemma assemble_urn (x : extracted) (formatted_urn awrs_number : string)
  (supplier_name : json) (now : string) :
  assemble x formatted_urn awrs_number supplier_name now !! "urn"
  = Some (JStr (str_or (x_urn x) formatted_urn)).
Proof. unfold assemble. destruct (not_applicable_case _ _). dict_lookup. Qed.

Section KnownStatus.

Variable site : registry.
Variables now awrs_number : string.
Variable supplier_name : json.

Local Abbreviation run := (lookup_single_awrs site now awrs_number supplier_name).

(** X16. In a successful lookup, a date of deregistration that is not "not
    applicable" is returned as extracted and leaves the status alone; and a
    date that is "not applicable" never changes a status that is already
    known (neither missing nor "Unknown"). *)
Theorem known_status_is_kept :
  fst run !! "success" = Some (JBool true) ->
  exists r,
    answered site (snd run) = Some r /\
    (is_not_applicable (x_deregistration_date (extract (content r))) = false ->
       fst run !! "deregistration_date"
       = Some (JStr (x_deregistration_date (extract (content r)))) /\
       fst run !! "status"
       = Some (JStr (str_or (normalised (x_status (extract (content r)))) "Unknown"))) /\
    (normalised (x_status (extract (content r))) <> "" ->
     normalised (x_status (extract (content r))) <> "Unknown" ->
       fst run !! "status" = Some (JStr (normalised (x_status (extract (content r)))))).
Proof.
  intros Hs.
  destruct (ending_found site now awrs_number supplier_name _ _
              (lookup_single_awrs_ends site now awrs_number supplier_name) Hs)
    as (r & Hr & _ & Hd).
  exists r. split; [exact Hr|].
  rewrite Hd, assemble_status, assemble_deregistration_date.
  set (x := extract (content r)). unfold not_applicable_case.
  split.
  - intros ->. split; reflexivity.
  - intros Hne Hnu.
    destruct (normalised (x_status x)) as [|c st] eqn:E; [contradiction|].
    destruct (String.eqb (String c st) "Unknown") eqn:Eu.
    { apply String.eqb_eq in Eu. contradiction. }
    destruct (is_not_applicable _); cbn [Str.is_empty orb fst]; reflexivity.
Qed.

End KnownStatus.

(** A witness of X16: the page says "Deregistered" and the date is "Not
    Applicable". *)
Lemma known_status_is_kept_witness :
  fst (lookup_single_awrs
         (mock_registry 200 200
            (results_page [("Status", "Deregistered");
                           ("Date of deregistration", "Not Applicable")]))
         timestamp "xaaw00001234567" (JStr "Acme")) !! "status"
  = Some (JStr "Deregistered").
Proof.
  destruct (known_status_is_kept
              (mock_registry 200 200
                 (results_page [("Status", "Deregistered");
                                ("Date of deregistration", "Not Applicable")]))
              timestamp "xaaw00001234567" (JStr "Acme"))
    as (r & Hr & _ & Hkept).
  - vm_compute. reflexivity.
  - vm_compute in Hr. injection Hr as <-.
    rewrite Hkept by (vm_compute; discriminate). vm_compute. reflexivity.
Defined.

(** ** The answers of the webhook, continued *)

(** The webhook answers with a failure record of its own, without any request,
    or hands on the result of a lookup for a number that is trimmed and not
    empty. *)
Lemma webhook_handler_runs (site : registry) (now : string) (rq : body) :
  (exists error, webhook_handler site now rq = (webhook_failure now error, [])) \/
  (exists m s,
     rq = Parsed (JObj m) /\ m !! "awrs_number" = Some (JStr s) /\ Str.strip s <> "" /\
     webhook_handler site now rq
     = lookup_single_awrs site now (Str.strip s) (default (JStr "") (m !! "supplier_name"))).
Proof.
  destruct rq as [e|j]; [left; eexists; reflexivity|].
  destruct (truthy j) eqn:Ht.
  - destruct j as [| | | | | |m];
      try (left; eexists; unfold webhook_handler, webhook_body; rewrite Ht; reflexivity).
    destruct (m !! "awrs_number") as [v|] eqn:Hm.
    + destruct v as [| | | |s| |];
        try (left; eexists; unfold webhook_handler, webhook_body; rewrite Ht;
             cbn [data_get]; rewrite Hm; reflexivity).
      destruct (Str.strip s) as [|c st] eqn:Hs.
      * left. eexists. unfold webhook_handler, webhook_body. rewrite Ht.
        cbn [data_get]. rewrite Hm. cbn [default from_option id json_strip].
        rewrite Hs. reflexivity.
      * assert (Hne : Str.strip s <> "") by (rewrite Hs; discriminate).
        right. exists m, s.
        split; [reflexivity|]. split; [exact Hm|]. split; [exact Hne|].
        apply webhook_handler_invokes_lookup; assumption.
    + left. eexists. unfold webhook_handler, webhook_body. rewrite Ht.
      cbn [data_get]. rewrite Hm. reflexivity.
  - left. eexists. unfold webhook_handler, webhook_body. rewrite Ht. reflexivity.
Qed.

Lemma format_awrs_not_empty (s : string) :
  Str.strip s <> "" -> format_awrs (Some (Str.strip s)) <> "".
Proof.
  intros Hs. rewrite format_awrs_cases. cbn [or_empty].
  destruct (is_urn_shape _) eqn:Hshape.
  - destruct (shape_inv _ Hshape) as (a1 & a2 & a3 & a4 & d1 & d2 & d3 & d4 & d5 & d6 & d7
                                       & d8 & d9 & d10 & d11 & -> & _ & _).
    discriminate.
  - rewrite strip_strip. intros E. apply Hs, is_empty_true.
    rewrite <- upper_is_empty, E. reflexivity.
Qed.

(** X17. In a successful answer of the webhook the business name and the URN
    are never empty: a name that was not found is "Not found", and a URN that
    was not found is the formatted number of the request. *)
Theorem successful_answer_names_business_and_urn (site : registry) (now : string)
  (rq : body) :
  fst (webhook_handler site now rq) !! "success" = Some (JBool true) ->
  exists business_name urn,
    fst (webhook_handler site now rq) !! "business_name" = Some (JStr business_name) /\
    business_name <> "" /\
    fst (webhook_handler site now rq) !! "urn" = Some (JStr urn) /\
    urn <> "".
Proof.
  intros Hs.
  destruct (webhook_handler_runs site now rq) as [[error H]|(m & s & _ & _ & Hne & H)];
    rewrite H in *.
  - cbn [fst] in Hs. rewrite webhook_failure_success in Hs. discriminate.
  - destruct (ending_found site now _ _ _ _ (lookup_single_awrs_ends site now _ _) Hs)
      as (r & _ & _ & ->).
    rewrite assemble_business_name, assemble_urn.
    eexists _, _. split; [reflexivity|]. split; [|split; [reflexivity|]].
    + unfold str_or. destruct (x_business_name _); discriminate.
    + unfold str_or. destruct (x_urn _); [|discriminate].
      apply format_awrs_not_empty, Hne.
Qed.

Lemma successful_answer_names_business_and_urn_witness :
  exists business_name urn,
    fst (webhook_handler (mock_registry 200 200 (results_page [])) timestamp
           (Parsed (JObj {[ "awrs_number" := JStr " xaaw00001234567 " ]})))
    !! "business_name" = Some (JStr business_name) /\
    business_name <> "" /\
    fst (webhook_handler (mock_registry 200 200 (results_page [])) timestamp
           (Parsed (JObj {[ "awrs_number" := JStr " xaaw00001234567 " ]})))
    !! "urn" = Some (JStr urn) /\
    urn <> "".
Proof.
  apply successful_answer_names_business_and_urn. vm_compute. reflexivity.
Defined.

(** X18. White space around the number of a request does not matter: the
    webhook answers a padded number as it answers the trimmed one. *)
Theorem webhook_ignores_padding (site : registry) (now : string) (m : gmap string json)
  (s : string) :
  webhook_handler site now (Parsed (JObj (<["awrs_number" := JStr s]> m)))
  = webhook_handler site now (Parsed (JObj (<["awrs_number" := JStr (Str.strip s)]> m))).
Proof.
  assert (H : forall t,
    webhook_handler site now (Parsed (JObj (<["awrs_number" := JStr t]> m)))
    = if Str.is_empty (Str.strip t)
      then (webhook_failure now "No AWRS number provided", [])
      else lookup_single_awrs site now (Str.strip t)
             (default (JStr "") (m !! "supplier_name"))).
  { intros t. unfold webhook_handler, webhook_body.
    assert (Ht : truthy (JObj (<["awrs_number" := JStr t]> m)) = true).
    { cbn [truthy]. rewrite bool_decide_eq_false_2; [reflexivity|].
      apply insert_non_empty. }
    rewrite Ht. cbn [data_get].
    rewrite lookup_insert_eq, lookup_insert_ne by discriminate.
    cbn [default from_option id json_strip].
    destruct (Str.is_empty (Str.strip t)); [reflexivity|].
    destruct (lookup_single_awrs _ _ _ _). reflexivity. }
  rewrite !H, strip_strip. reflexivity.
Qed.

(** X19. The webhook reaches the network only for a request whose body is an
    object with a string [awrs_number] that is not blank: every other request
    is answered without any request being made. *)
Theorem webhook_requests_need_a_number (site : registry) (now : string) (rq : body) :
  snd (webhook_handler site now rq) <> [] ->
  exists m s,
    rq = Parsed (JObj m) /\ m !! "awrs_number" = Some (JStr s) /\ Str.strip s <> "".
Proof.
  intros Hlog.
  destruct (webhook_handler_runs site now rq) as [[error H]|(m & s & Hrq & Hm & Hs & _)].
  - rewrite H in Hlog. contradiction.
  - eauto.
Qed.

Lemma webhook_requests_need_a_number_witness :
  exists m s,
    Parsed (JObj {[ "awrs_number" := JStr "XAAW 0000 1234 567" ]}) = Parsed (JObj m) /\
    m !! "awrs_number" = Some (JStr s) /\ Str.strip s <> "".
Proof.
  apply (webhook_requests_need_a_number (mock_registry 500 200 (results_page []))
           timestamp).
  vm_compute. discriminate.
Defined.

(** X20. A request whose body is not an object, or whose [awrs_number] is not
    a string, is answered with the failure record that carries the text of the
    attribute error, and no request is made. *)
Theorem webhook_rejects_wrong_types (site : registry) (now : string) :
  (forall j,
     truthy j = true -> (forall m, j <> JObj m) ->
     webhook_handler site now (Parsed j)
     = (webhook_failure now (no_attribute j "get"), [])) /\
  (forall m v,
     m !! "awrs_number" = Some v -> (forall s, v <> JStr s) ->
     webhook_handler site now (Parsed (JObj m))
     = (webhook_failure now (no_attribute v "strip"), [])).
Proof.
  split.
  - intros j Ht Hj. unfold webhook_handler, webhook_body. rewrite Ht.
    destruct j; try reflexivity. exfalso. eapply Hj. reflexivity.
  - intros m v Hm Hv. unfold webhook_handler, webhook_body.
    assert (Ht : truthy (JObj m) = true).
    { cbn [truthy]. rewrite bool_decide_eq_false_2; [reflexivity|].
      intros ->. rewrite lookup_empty in Hm. discriminate. }
    rewrite Ht. cbn [data_get]. rewrite Hm. cbn [default from_option id].
    destruct v; try reflexivity. exfalso. eapply Hv. reflexivity.
Qed.

(** A witness of X20: the number is [null]. *)
Lemma webhook_rejects_wrong_types_witness :
  fst (webhook_handler unreachable timestamp (Parsed (JObj {[ "awrs_number" := JNull ]})))
    !! "error"
  = Some (JStr "'NoneType' object has no attribute 'strip'").
Proof.
  rewrite (proj2 (webhook_rejects_wrong_types unreachable timestamp)
             {[ "awrs_number" := JNull ]} JNull).
  - vm_compute. reflexivity.
  - vm_compute. reflexivity.
  - discriminate.
Defined.

(** ** The hidden fields of the form *)

Lemma hidden_fields_app (a b : list node) (form_data : gmap (option string) string) :
  hidden_fields (a ++ b) form_data = hidden_fields b (hidden_fields a form_data).
Proof.
  revert form_data. induction a as [|i a IH]; intros form_data; [reflexivity|].
  cbn [app hidden_fields].
  destruct (Soup.get "name" i) as [n|]; [|apply IH].
  destruct (Str.is_empty n); apply IH.
Qed.

Lemma hidden_fields_other (inputs : list node) (form_data : gmap (option string) string)
  (key : option string) :
  (forall i n, In i inputs -> Soup.get "name" i = Some n -> Str.is_empty n = false ->
               key <> Some n) ->
  hidden_fields inputs form_data !! key = form_data !! key.
Proof.
  revert form_data. induction inputs as [|i inputs IH]; intros form_data H; [reflexivity|].
  cbn [hidden_fields].
  assert (Hrest : forall j n, In j inputs -> Soup.get "name" j = Some n ->
                              Str.is_empty n = false -> key <> Some n)
    by (intros j n Hj; apply H; right; exact Hj).
  destruct (Soup.get "name" i) as [n|] eqn:Hn; [|apply IH, Hrest].
  destruct (Str.is_empty n) eqn:He; [apply IH, Hrest|].
  rewrite IH by exact Hrest.
  apply lookup_insert_ne. intros E. exact (H i n (or_introl eq_refl) Hn He (eq_sym E)).
Qed.

(** X21. The hidden fields of the form are collected under their names: an
    input without a name, or with an empty one, adds nothing (so no field is
    ever collected under a missing or an empty name), and of several inputs
    with the same name the last one gives the value, the empty string when it
    has no value. *)
Theorem hidden_fields_last_wins (before after : list node) (i : node) (n : string)
  (form_data : gmap (option string) string) :
  (hidden_fields (before ++ i :: after) form_data !! None = form_data !! None /\
   hidden_fields (before ++ i :: after) form_data !! Some "" = form_data !! Some "") /\
  (Soup.get "name" i = Some n -> n <> "" ->
   (forall j, In j after -> Soup.get "name" j <> Some n) ->
   hidden_fields (before ++ i :: after) form_data !! Some n
   = Some (default "" (Soup.get "value" i))).
Proof.
  split.
  - split; apply hidden_fields_other; intros j m _ Hm He; [discriminate|].
    intros [= <-]. discriminate He.
  - intros Hn Hne Hafter.
    rewrite hidden_fields_app. cbn [hidden_fields]. rewrite Hn.
    destruct (Str.is_empty n) eqn:He; [apply is_empty_true in He; contradiction|].
    rewrite hidden_fields_other.
    + apply lookup_insert_eq.
    + intros j m Hj Hm _ [= <-]. exact (Hafter j Hj Hm).
Qed.

Lemma hidden_fields_last_wins_witness :
  hidden_fields
    ([input [("type", "hidden"); ("name", "token"); ("value", "old")]]
     ++ input [("type", "hidden"); ("name", "token"); ("value", "new")]
     :: [input [("type", "hidden"); ("name", "other")]])
    ∅ !! Some "token"
  = Some "new".
Proof.
  refine (proj2 (hidden_fields_last_wins _ _ _ "token" ∅) _ _ _).
  - vm_compute. reflexivity.
  - discriminate.
  - intros j [<-|[]]. vm_compute. discriminate.
Defined.

(** ** The page behind the link *)

(** X22. The status code of the page fetched behind the "check a URN" link is
    not looked at: whatever it is, the lookup makes the same requests and
    returns the same record. *)
Theorem navigation_status_is_ignored (code : Z) (site : registry) (now awrs_number : string)
  (supplier_name : json) :
  lookup_single_awrs (with_navigation_status code site) now awrs_number supplier_name
  = lookup_single_awrs site now awrs_number supplier_name.
Proof.
  unfold lookup_single_awrs, try_except, lookup_body, bind, call, ret, return_,
    with_navigation_status.
  cbn [app].
  destruct (site [] (Get HMRC_URL)) as [e|r]; [reflexivity|].
  destruct (Z.eqb_spec (status_code r) 200); cbn [negb]; [|reflexivity].
  destruct (find_check_urn _) as [u|].
  - destruct (negb (Str.is_empty u) && negb (Str.startswith "http" u)).
    + destruct (site [Get HMRC_URL] (Get (ORIGIN ++ u))) as [e'|r']; [reflexivity|].
      cbn [content].
      destruct (Soup.find "form" (content r')); [|reflexivity].
      destruct (find_text_input _ (content r')); reflexivity.
    + destruct (Soup.find "form" (content r)); [|reflexivity].
      destruct (find_text_input _ (content r)); reflexivity.
  - destruct (Soup.find "form" (content r)); [|reflexivity].
    destruct (find_text_input _ (content r)); reflexivity.
Qed.
